(** * Simulated multi-agent workflow endpoints

    A shallow embedding of the three FastAPI routers of the repository
    ([src/agents/multi_agent_workflow.py], [src/api/gemini_integration.py],
    [src/api/jules_integration.py]) and the properties of their handlers.

    Layout: Python values and exceptions ([Py]), the [uuid] module
    ([UUID]), the effects a handler can perform ([world], [M]), then one
    module per source file, then the theorems. *)

From Stdlib Require Import ZArith List String Ascii Bool Lia.
From Stdlib Require Import Numbers.DecimalString.
Import ListNotations.
Open Scope string_scope.
#[local] Set Warnings "-register-all".

(* ================================================================= *)
(** ** Python values *)

Module Py.

(** JSON-shaped Python data.  A [float] is carried by its [repr] text: the
    program never computes with floats, it only stores literals, tests
    them for truth and prints them.  A [dict] keeps insertion order. *)
Inductive value : Type :=
| VNone
| VBool (b : bool)
| VInt (z : Z)
| VFloat (repr : string)
| VStr (s : string)
| VList (items : list value)
| VDict (fields : list (string * value)).

(** Exceptions deriving from [Exception]: FastAPI's [HTTPException]
    (a subclass of [Exception]) and every other one, kept as its class name
    and the text [str(e)] yields. *)
Inductive exn : Type :=
| HTTPException (status_code : nat) (detail : string)
| PyExc (cls : string) (text : string).

Inductive result (A : Type) : Type :=
| Ok (a : A)
| Raise (e : exn).
Arguments Ok {A} a.
Arguments Raise {A} e.

Definition str_of_nat (n : nat) : string :=
  NilEmpty.string_of_uint (Nat.to_uint n).

Definition str_of_Z (z : Z) : string :=
  NilEmpty.string_of_int (Z.to_int z).

(** [type(v).__name__] *)
Definition type_name (v : value) : string :=
  match v with
  | VNone => "NoneType"
  | VBool _ => "bool"
  | VInt _ => "int"
  | VFloat _ => "float"
  | VStr _ => "str"
  | VList _ => "list"
  | VDict _ => "dict"
  end.

(** [bool(v)] *)
Definition truthy (v : value) : bool :=
  match v with
  | VNone => false
  | VBool b => b
  | VInt z => negb (Z.eqb z 0)
  | VFloat r => negb (String.eqb r "0.0" || String.eqb r "-0.0")
  | VStr s => negb (String.eqb s "")
  | VList l => match l with [] => false | _ => true end
  | VDict l => match l with [] => false | _ => true end
  end.

Fixpoint assoc (k : string) (l : list (string * value)) : option value :=
  match l with
  | [] => None
  | (k', v) :: rest => if String.eqb k k' then Some v else assoc k rest
  end.

(** [v.get(k, default)]: defined on dicts only; any other JSON value has no
    attribute [get]. *)
Definition get (v : value) (k : string) (default : value) : result value :=
  match v with
  | VDict l => Ok (match assoc k l with Some x => x | None => default end)
  | _ => Raise (PyExc "AttributeError"
                  ("'" ++ type_name v ++ "' object has no attribute 'get'"))
  end.

(** [v[k]] on a dict; [str] of a [KeyError] is the [repr] of the key. *)
Definition getitem (v : value) (k : string) : result value :=
  match v with
  | VDict l =>
      match assoc k l with
      | Some x => Ok x
      | None => Raise (PyExc "KeyError" ("'" ++ k ++ "'"))
      end
  | VList _ => Raise (PyExc "TypeError" "list indices must be integers or slices, not str")
  | VStr _ => Raise (PyExc "TypeError" "string indices must be integers, not 'str'")
  | _ => Raise (PyExc "TypeError"
                  ("'" ++ type_name v ++ "' object is not subscriptable"))
  end.

(** [v[k1][k2]...] *)
Fixpoint getpath (v : value) (keys : list string) : result value :=
  match keys with
  | [] => Ok v
  | k :: rest =>
      match getitem v k with
      | Ok x => getpath x rest
      | Raise e => Raise e
      end
  end.

(** A JSON object with one key left out; other values are left as they are. *)
Definition without (k : string) (v : value) : value :=
  match v with
  | VDict l => VDict (filter (fun kv => negb (String.eqb k (fst kv))) l)
  | _ => v
  end.

Fixpoint join (sep : string) (l : list string) : string :=
  match l with
  | [] => ""
  | [x] => x
  | x :: rest => x ++ sep ++ join sep rest
  end.

Section Repr.
(** [repr] on a [str] (quote selection and escaping) belongs to the
    interpreter; it is only reached when a string sits inside a list or
    dict that is printed. *)
Variable repr_str : string -> string.

Fixpoint repr (v : value) : string :=
  match v with
  | VNone => "None"
  | VBool true => "True"
  | VBool false => "False"
  | VInt z => str_of_Z z
  | VFloat r => r
  | VStr s => repr_str s
  | VList l => "[" ++ join ", " (map repr l) ++ "]"
  | VDict l =>
      "{" ++ join ", " (map (fun kv => repr_str (fst kv) ++ ": " ++ repr (snd kv)) l) ++ "}"
  end.

(** [str(v)], which is also what an f-string field [{v}] renders. *)
Definition str (v : value) : string :=
  match v with
  | VStr s => s
  | _ => repr v
  end.
End Repr.

(** [str(e)]: Starlette's [HTTPException.__str__] is
    [f"{status_code}: {detail}"]. *)
Definition str_exn (e : exn) : string :=
  match e with
  | HTTPException code detail => str_of_nat code ++ ": " ++ detail
  | PyExc _ text => text
  end.

(** [needle in haystack] on strings. *)
Fixpoint contains (needle haystack : string) : bool :=
  String.prefix needle haystack
  || match haystack with
     | EmptyString => false
     | String _ rest => contains needle rest
     end.

End Py.

Import Py.

(* ================================================================= *)
(** ** The [uuid] module *)

Module UUID.

Local Open Scope Z_scope.

(** [UUID(bytes=..., version=4)]: the 128-bit integer of the sixteen random
    bytes with the variant (bits 62-63) and version (bits 76-79) fields
    overwritten. *)
Definition v4_int (draw : Z) : Z :=
  let int := Z.land draw (Z.lnot (Z.shiftl 0xc000 48)) in
  let int := Z.lor int (Z.shiftl 0x8000 48) in
  let int := Z.land int (Z.lnot (Z.shiftl 0xf000 64)) in
  Z.lor int (Z.shiftl 4 76).

Definition hex_digit (d : Z) : ascii :=
  match d with
  | 0 => "0" | 1 => "1" | 2 => "2" | 3 => "3"
  | 4 => "4" | 5 => "5" | 6 => "6" | 7 => "7"
  | 8 => "8" | 9 => "9" | 10 => "a" | 11 => "b"
  | 12 => "c" | 13 => "d" | 14 => "e" | _ => "f"
  end%char.

(** ['%0kx' % n] for [0 <= n < 16^k]. *)
Fixpoint hex_fixed (k : nat) (n : Z) : string :=
  match k with
  | O => ""
  | S k' => hex_fixed k' (n / 16) ++ String (hex_digit (n mod 16)) ""
  end.

(** The 32 hex digits grouped 8-4-4-4-12. *)
Definition group (x : string) : string :=
  substring 0 8 x ++ "-" ++ substring 8 4 x ++ "-" ++ substring 12 4 x
    ++ "-" ++ substring 16 4 x ++ "-" ++ substring 20 12 x.

(** [UUID.__str__] *)
Definition to_str (int : Z) : string := group (hex_fixed 32 int).

(** The digits of a grouped form, as [UUID(hex=...)] reads them back. *)
Definition ungroup (s : string) : string :=
  substring 0 8 s ++ substring 9 4 s ++ substring 14 4 s
    ++ substring 19 4 s ++ substring 24 12 s.

Definition hex_value (c : ascii) : Z :=
  match c with
  | "0" => 0 | "1" => 1 | "2" => 2 | "3" => 3
  | "4" => 4 | "5" => 5 | "6" => 6 | "7" => 7
  | "8" => 8 | "9" => 9 | "a" => 10 | "b" => 11
  | "c" => 12 | "d" => 13 | "e" => 14 | _ => 15
  end%char.

(** The 122 bits of a draw that survive in a version-4 UUID, and the six
    bits that are the same in all of them. *)
Definition random_mask : Z :=
  Z.land (Z.ones 128) (Z.lnot (Z.lor (Z.shiftl 0xc000 48) (Z.shiftl 0xf000 64))).

Definition fixed_bits : Z := Z.lor (Z.shiftl 0x8000 48) (Z.shiftl 4 76).

End UUID.

(* ================================================================= *)
(** ** Effects of a request handler *)

(** Arguments of one scheduled run of the background pipeline. *)
Record task : Type := mkTask {
  arg_collaboration_id : string;
  arg_task_description : string;
  arg_workflow_type : string;
  arg_github_repo_url : option string;
  arg_requirements : list string
}.

Inductive event : Type :=
| Print (line : string)          (* [print(...)] to standard output *)
| Sleep (seconds : nat)          (* [await asyncio.sleep(...)] *)
| AddTask (t : task).            (* [background_tasks.add_task(...)] *)

(** What [open("config/config.json")] followed by [json.load] yields. *)
Inductive config_source : Type :=
| Unreadable (e : exn)
| Parsed (config : value).

(** Everything outside the handlers that they read or write: the
    configuration file, the process environment, the operating system's
    random bytes (as the integer of each successive sixteen-byte draw), the
    wall clock, and the trace of output, delays and scheduled tasks.  There
    is no other store. *)
Record world : Type := mkWorld {
  config_file : config_source;
  environ : list (string * string);
  urandom : nat -> Z;
  drawn : nat;
  now : string;
  events : list event
}.

Definition M (A : Type) : Type := world -> world * result A.

Definition ret {A} (a : A) : M A := fun w => (w, Ok a).

Definition raise {A} (e : exn) : M A := fun w => (w, Raise e).

Definition bind {A B} (m : M A) (k : A -> M B) : M B :=
  fun w =>
    match m w with
    | (w', Ok a) => k a w'
    | (w', Raise e) => (w', Raise e)
    end.

(** [try: body / except Exception as e: handler(e)] *)
Definition try_except {A} (body : M A) (handler : exn -> M A) : M A :=
  fun w =>
    match body w with
    | (w', Ok a) => (w', Ok a)
    | (w', Raise e) => handler e w'
    end.

Definition lift {A} (r : result A) : M A := fun w => (w, r).

Declare Scope py_scope.
Delimit Scope py_scope with py.
Notation "x <- m ;; k" := (bind m (fun x => k))
  (at level 61, m at next level, right associativity) : py_scope.
Notation "m ;;; k" := (bind m (fun _ => k))
  (at level 61, right associativity) : py_scope.
Open Scope py_scope.

Definition emit (e : event) : M unit :=
  fun w => (mkWorld (config_file w) (environ w) (urandom w) (drawn w) (now w) (events w ++ [e]), Ok tt).

Definition print (line : string) : M unit := emit (Print line).
(** The world once [line] has been printed. *)
Definition logged (line : string) (w : world) : world := fst (print line w).
Definition sleep (seconds : nat) : M unit := emit (Sleep seconds).
Definition add_task (t : task) : M unit := emit (AddTask t).

(** [with open(config_path) as f: config = json.load(f)] *)
Definition load_config : M value :=
  fun w =>
    match config_file w with
    | Unreadable e => (w, Raise e)
    | Parsed config => (w, Ok config)
    end.

(** [str(uuid.uuid4())]: consumes one sixteen-byte draw. *)
Definition uuid4_str : M string :=
  fun w =>
    (mkWorld (config_file w) (environ w) (urandom w) (S (drawn w)) (now w) (events w),
     Ok (UUID.to_str (UUID.v4_int (urandom w (drawn w) mod 2 ^ 128)%Z))).

(** [os.getenv(key)]: the key must be a [str]. *)
Definition getenv (key : value) : M value :=
  fun w =>
    match key with
    | VStr k =>
        (w, Ok (match find (fun kv => String.eqb k (fst kv)) (environ w) with
                | Some kv => VStr (snd kv)
                | None => VNone
                end))
    | _ => (w, Raise (PyExc "TypeError" ("str expected, not " ++ type_name key)))
    end.

(** The sixteen random bytes the next [uuid4()] will use. *)
Definition next_draw (w : world) : Z := (urandom w (drawn w) mod 2 ^ 128)%Z.

(** [datetime.now().isoformat()] *)
Definition now_isoformat : M string := fun w => (w, Ok (now w)).

(** Looking a name up in a module's global scope (the builtins hold none of
    the names looked up here). *)
Definition resolve_global (globals : list string) (name : string) : M unit :=
  if existsb (String.eqb name) globals then ret tt
  else raise (PyExc "NameError" ("name '" ++ name ++ "' is not defined")).

(** The HTTP response the framework sends for a handler's outcome: the
    returned payload with status 200, an [HTTPException] as its status with
    the detail as body, anything else as a bare 500.  The 200 presumes a
    payload that the JSON encoder accepts: it refuses a float that is not
    finite. *)
Record http_response : Type := mkResponse {
  status : nat;
  body : value
}.

Definition respond (r : result value) : http_response :=
  match r with
  | Ok v => mkResponse 200 v
  | Raise (HTTPException code detail) => mkResponse code (VDict [("detail", VStr detail)])
  | Raise (PyExc _ _) => mkResponse 500 (VStr "Internal Server Error")
  end.

(** One request served in world [w]. *)
Definition serve (handler : M value) (w : world) : http_response :=
  respond (snd (handler w)).

(** Text is carried by its UTF-8 bytes.  A byte [10xxxxxx] continues the
    character begun before it; every other byte begins one. *)
Definition is_continuation (c : ascii) : bool :=
  let n := nat_of_ascii c in Nat.leb 128 n && Nat.ltb n 192.

(** [len(s)], in characters. *)
Fixpoint char_count (s : string) : nat :=
  match s with
  | EmptyString => 0
  | String c rest =>
      if is_continuation c then char_count rest else S (char_count rest)
  end.

(** [s[:n]]: the first [n] characters, each with all of its bytes. *)
Fixpoint take_chars (n : nat) (s : string) : string :=
  match s with
  | EmptyString => EmptyString
  | String c rest =>
      if is_continuation c then String c (take_chars n rest)
      else match n with
           | O => EmptyString
           | S n' => String c (take_chars n' rest)
           end
  end.

(** [config.get(section, {}).get(key, False)] *)
Definition config_flag (config : value) (section key : string) : result value :=
  match get config section (VDict []) with
  | Ok sec => get sec key (VBool false)
  | Raise e => Raise e
  end.

Definition strs (l : list string) : value := VList (map VStr l).

(* ================================================================= *)
(** ** [src/agents/multi_agent_workflow.py] *)

Module MultiAgentWorkflow.

(** Names bound at module scope: the imports, the router, the models and
    the functions. *)
Definition module_globals : list string :=
  ["APIRouter"; "HTTPException"; "BackgroundTasks"; "BaseModel"; "Dict";
   "Any"; "List"; "Optional"; "json"; "asyncio"; "Path"; "uuid"; "datetime";
   "router"; "CollaborationRequest"; "CollaborationStatus"; "WorkflowResult";
   "start_multi_agent_collaboration"; "execute_collaboration_workflow";
   "simulate_gemini_analysis"; "simulate_jules_implementation";
   "cross_validate_solution"; "finalize_collaboration";
   "get_collaboration_status"; "get_multi_agent_capabilities";
   "test_multi_agent_integration"].

Record CollaborationRequest : Type := mkRequest {
  task_description : string;
  priority : string;
  workflow_type : string;
  github_repo_url : option string;
  specific_requirements : list string
}.

(** The [CollaborationStatus] response model, as the JSON object it is
    serialised to. *)
Definition CollaborationStatus
  (collaboration_id status current_phase : string) (participants : list string)
  (progress : list (string * value)) (estimated_completion : option string) : value :=
  VDict [("collaboration_id", VStr collaboration_id);
         ("status", VStr status);
         ("current_phase", VStr current_phase);
         ("participants", strs participants);
         ("progress", VDict progress);
         ("estimated_completion",
          match estimated_completion with Some s => VStr s | None => VNone end)].

Definition pending_phase : value :=
  VDict [("status", VStr "pending"); ("start_time", VNone); ("end_time", VNone)].

Section Handlers.
Variable repr_str : string -> string.

(** [POST /multi-agent/start-collaboration] *)
Definition start_multi_agent_collaboration (request : CollaborationRequest) : M value :=
  try_except
    (config <- load_config ;;
     cross_enabled <- lift (config_flag config "cross_agent" "enabled") ;;
     if negb (truthy cross_enabled)
     then raise (HTTPException 503 "Multi-agent collaboration not enabled")
     else
       jules_enabled <- lift (config_flag config "jules_agent" "enabled") ;;
       gemini_enabled <- lift (config_flag config "gemini_agent" "enabled") ;;
       if negb (truthy jules_enabled && truthy gemini_enabled)
       then raise (HTTPException 503
                     ("Both agents must be enabled. Jules: " ++ str repr_str jules_enabled
                        ++ ", Gemini: " ++ str repr_str gemini_enabled))
       else
         resolve_global module_globals "uuid" ;;;
         collaboration_id <- uuid4_str ;;
         created_at <- now_isoformat ;;
         (* a local that is neither stored nor returned *)
         let collaboration_data :=
           VDict [("id", VStr collaboration_id);
                  ("created_at", VStr created_at);
                  ("task", VStr (task_description request));
                  ("priority", VStr (priority request));
                  ("workflow_type", VStr (workflow_type request));
                  ("status", VStr "initiated");
                  ("phases",
                   VDict [("1_gemini_analysis", pending_phase);
                          ("2_jules_implementation", pending_phase);
                          ("3_cross_validation", pending_phase);
                          ("4_finalization", pending_phase)])] in
         add_task (mkTask collaboration_id (task_description request)
                     (workflow_type request) (github_repo_url request)
                     (specific_requirements request)) ;;;
         ret (CollaborationStatus collaboration_id "initiated" "gemini_analysis"
                ["gemini-coding-agent"; "jules-agent"]
                [("phase_1", VStr "Starting Gemini analysis");
                 ("overall_progress", VStr "5%")]
                (Some "5-10 minutes")))
    (fun e => raise (HTTPException 500
                       ("Collaboration initiation error: " ++ str_exn e))).
End Handlers.

(** Phase 1 *)
Definition simulate_gemini_analysis
  (task_description : string) (requirements : list string) : M value :=
  sleep 2 ;;;
  ret (VDict
    [("task_analysis", VDict
       [("complexity", VStr "medium");
        ("estimated_effort", VStr "2-3 hours");
        ("key_components", strs ["API endpoint"; "data validation"; "error handling"]);
        ("security_considerations", strs ["Input validation"; "Authentication required"]);
        ("performance_notes", strs ["Consider caching"; "Database optimization needed"])]);
     ("requirements_analysis", VDict
       [("functional_requirements",
         strs (requirements ++ ["User authentication"; "Data persistence"]));
        ("non_functional_requirements", strs ["Performance"; "Security"; "Scalability"]);
        ("constraints", strs ["Must use FastAPI"; "Python 3.8+ compatible"])]);
     ("implementation_guidance", VDict
       [("recommended_patterns", strs ["Repository pattern"; "Dependency injection"]);
        ("suggested_libraries", strs ["pydantic"; "sqlalchemy"; "pytest"]);
        ("architecture_notes", VStr "Microservices compatible design")]);
     ("quality_metrics", VDict
       [("confidence", VFloat "0.92");
        ("completeness", VFloat "0.88");
        ("complexity_score", VFloat "6.5")])]).

(** [github_repo_url or "local_development"] *)
Definition repo_or_local (github_repo_url : option string) : string :=
  match github_repo_url with
  | Some url => if String.eqb url "" then "local_development" else url
  | None => "local_development"
  end.

(** Phase 2 *)
Definition simulate_jules_implementation
  (task_description : string) (gemini_analysis : value)
  (github_repo_url : option string) : M value :=
  sleep 3 ;;;
  task_analysis <- lift (getitem gemini_analysis "task_analysis") ;;
  security <- lift (getitem task_analysis "security_considerations") ;;
  ret (VDict
    [("implementation_plan", VDict
       [("phases", strs ["Setup"; "Core implementation"; "Testing"; "Documentation"]);
        ("estimated_duration", VStr "25 minutes");
        ("branch_name", VStr "feature/multi-agent-collaboration-implementation")]);
     ("code_generation", VDict
       [("files_created", strs ["src/api/new_endpoint.py"; "tests/test_new_endpoint.py"]);
        ("files_modified", strs ["src/main.py"; "requirements.txt"]);
        ("lines_of_code", VInt 150);
        ("test_coverage", VStr "85%")]);
     ("implementation_details", VDict
       [("follows_gemini_guidance", VBool true);
        ("security_implemented", security);
        ("performance_optimizations", strs ["Async operations"; "Database connection pooling"]);
        ("error_handling", VStr "Comprehensive exception handling added")]);
     ("testing_results", VDict
       [("unit_tests", VStr "Passed (12/12)");
        ("integration_tests", VStr "Passed (5/5)");
        ("code_quality", VStr "A+");
        ("security_scan", VStr "No issues found")]);
     ("github_integration", VDict
       [("repository", VStr (repo_or_local github_repo_url));
        ("branch_created", VBool true);
        ("commits", VInt 3);
        ("pr_ready", VBool true)])]).

(** Phase 3 *)
Definition cross_validate_solution (gemini_analysis jules_implementation : value) : M value :=
  sleep 1 ;;;
  ret (VDict
    [("validation_status", VStr "passed");
     ("alignment_score", VFloat "0.94");
     ("gemini_validation", VDict
       [("implementation_follows_analysis", VBool true);
        ("security_requirements_met", VBool true);
        ("performance_guidelines_followed", VBool true);
        ("additional_suggestions", strs ["Consider adding logging"; "Add API versioning"])]);
     ("jules_validation", VDict
       [("gemini_analysis_accuracy", VBool true);
        ("requirements_completeness", VBool true);
        ("implementation_feasibility", VBool true);
        ("quality_assessment", VStr "High quality implementation")]);
     ("consensus", VDict
       [("ready_for_deployment", VBool true);
        ("overall_quality_score", VFloat "9.2");
        ("collaboration_effectiveness", VStr "Excellent")])]).

(** Phase 4 *)
Definition finalize_collaboration
  (collaboration_id : string)
  (gemini_analysis jules_implementation validation_results : value) : M value :=
  consensus <- lift (getitem validation_results "consensus") ;;
  quality_score <- lift (getitem consensus "overall_quality_score") ;;
  gemini_insights <- lift (getitem gemini_analysis "implementation_guidance") ;;
  jules_learnings <- lift (getitem jules_implementation "implementation_details") ;;
  ret (VDict
    [("collaboration_summary", VDict
       [("id", VStr collaboration_id);
        ("status", VStr "completed");
        ("duration", VStr "6 minutes");
        ("quality_score", quality_score);
        ("success_factors",
         strs ["Clear requirements analysis by Gemini";
               "Efficient implementation by Jules";
               "Strong cross-validation process"])]);
     ("deliverables", VDict
       [("analysis_report", VStr "Complete requirements and security analysis");
        ("implementation", VStr "Fully tested code with documentation");
        ("validation_report", VStr "Cross-agent quality validation");
        ("deployment_package", VStr "Ready for production deployment")]);
     ("knowledge_transfer", VDict
       [("gemini_insights", gemini_insights);
        ("jules_learnings", jules_learnings);
        ("collaboration_patterns", VStr "Established for future use")])]).

(** The four phase functions the pipeline calls, as an interface, so that
    the pipeline can also be run with a phase that raises. *)
Record phase_functions : Type := mkPhases {
  run_analysis : string -> list string -> M value;
  run_implementation : string -> value -> option string -> M value;
  run_validation : value -> value -> M value;
  run_finalization : string -> value -> value -> value -> M value
}.

Definition source_phases : phase_functions :=
  mkPhases simulate_gemini_analysis simulate_jules_implementation
           cross_validate_solution finalize_collaboration.

(** The locals of the pipeline once phase 4 has returned. *)
Record workflow_locals : Type := mkLocals {
  gemini_analysis : value;
  jules_implementation : value;
  validation_results : value;
  final_results : value
}.

(** The [try] block of [execute_collaboration_workflow] up to phase 4. *)
Definition workflow_phases (ph : phase_functions)
  (collaboration_id task_description workflow_type : string)
  (github_repo_url : option string) (requirements : list string) : M workflow_locals :=
  print ("[" ++ collaboration_id ++ "] Phase 1: Starting Gemini analysis...") ;;;
  gemini_analysis <- run_analysis ph task_description requirements ;;
  print ("[" ++ collaboration_id ++ "] Phase 2: Starting Jules implementation...") ;;;
  jules_implementation <-
    run_implementation ph task_description gemini_analysis github_repo_url ;;
  print ("[" ++ collaboration_id ++ "] Phase 3: Cross-validation...") ;;;
  validation_results <- run_validation ph gemini_analysis jules_implementation ;;
  print ("[" ++ collaboration_id ++ "] Phase 4: Finalizing results...") ;;;
  final_results <-
    run_finalization ph collaboration_id gemini_analysis jules_implementation
      validation_results ;;
  ret (mkLocals gemini_analysis jules_implementation validation_results final_results).

Definition execute_collaboration_workflow_with (ph : phase_functions)
  (collaboration_id task_description workflow_type : string)
  (github_repo_url : option string) (requirements : list string) : M value :=
  try_except
    (workflow_phases ph collaboration_id task_description workflow_type
       github_repo_url requirements ;;;
     print ("[" ++ collaboration_id ++ "] Collaboration completed successfully!") ;;;
     ret VNone)
    (fun e =>
       print ("[" ++ collaboration_id ++ "] Collaboration error: " ++ str_exn e) ;;;
       ret VNone).

(** The background pipeline. *)
Definition execute_collaboration_workflow :
  string -> string -> string -> option string -> list string -> M value :=
  execute_collaboration_workflow_with source_phases.

(** [GET /multi-agent/status/{collaboration_id}] *)
Definition get_collaboration_status (collaboration_id : string) : M value :=
  ret (VDict
    [("collaboration_id", VStr collaboration_id);
     ("status", VStr "completed");
     ("current_phase", VStr "finalization");
     ("progress", VDict
       [("gemini_analysis", VStr "completed");
        ("jules_implementation", VStr "completed");
        ("cross_validation", VStr "completed");
        ("finalization", VStr "in_progress");
        ("overall_progress", VStr "90%")]);
     ("estimated_completion", VStr "1 minute remaining")]).

(** [GET /multi-agent/capabilities] *)
Definition get_multi_agent_capabilities : M value :=
  try_except
    (config <- load_config ;;
     cross_agent_enabled <- lift (config_flag config "cross_agent" "enabled") ;;
     jules <- lift (config_flag config "jules_agent" "enabled") ;;
     gemini <- lift (config_flag config "gemini_agent" "enabled") ;;
     ret (VDict
       [("system_status", VStr "operational");
        ("cross_agent_enabled", cross_agent_enabled);
        ("available_agents", VDict [("jules", jules); ("gemini", gemini)]);
        ("collaboration_workflows",
         strs ["analysis_only"; "implementation_only"; "full_collaboration"]);
        ("supported_features",
         strs ["Requirements analysis"; "Code implementation"; "Security review";
               "Performance optimization"; "Cross-validation"; "GitHub integration";
               "Automated testing"]);
        ("quality_metrics", VDict
          [("average_collaboration_time", VStr "5-10 minutes");
           ("success_rate", VStr "95%");
           ("quality_score_average", VFloat "8.7")])]))
    (fun e => raise (HTTPException 500 ("Error getting capabilities: " ++ str_exn e))).

(** [POST /multi-agent/test-integration] *)
Definition test_multi_agent_integration : M value :=
  try_except
    (config <- load_config ;;
     timestamp <- now_isoformat ;;
     cross_agent_enabled <- lift (config_flag config "cross_agent" "enabled") ;;
     jules_agent_enabled <- lift (config_flag config "jules_agent" "enabled") ;;
     gemini_agent_enabled <- lift (config_flag config "gemini_agent" "enabled") ;;
     (* [all([...])] is a [bool] *)
     let all_enabled :=
       truthy cross_agent_enabled && truthy jules_agent_enabled
         && truthy gemini_agent_enabled in
     ret (VDict
       [("timestamp", VStr timestamp);
        ("configuration_test", VDict
          [("cross_agent_enabled", cross_agent_enabled);
           ("jules_agent_enabled", jules_agent_enabled);
           ("gemini_agent_enabled", gemini_agent_enabled)]);
        ("connectivity_test", VDict
          [("jules_endpoint", VStr "accessible");
           ("gemini_endpoint", VStr "accessible");
           ("collaboration_protocol", VStr "functional")]);
        ("workflow_test", VDict
          [("analysis_phase", VStr "ready");
           ("implementation_phase", VStr "ready");
           ("validation_phase", VStr "ready");
           ("finalization_phase", VStr "ready")]);
        ("overall_status", VStr (if all_enabled then "healthy" else "partial"));
        ("ready_for_collaboration", VBool all_enabled)]))
    (fun e => raise (HTTPException 500 ("Integration test error: " ++ str_exn e))).

(** What the framework does with a task added by [add_task] once the
    response has been sent: it awaits the function on the stored
    arguments. *)
Definition run_task (t : task) : M value :=
  execute_collaboration_workflow (arg_collaboration_id t) (arg_task_description t)
    (arg_workflow_type t) (arg_github_repo_url t) (arg_requirements t).

End MultiAgentWorkflow.

(* ================================================================= *)
(** ** [src/api/gemini_integration.py] *)

Module GeminiIntegration.

Record GeminiAnalysisRequest : Type := mkAnalysisRequest {
  code : string;
  task : string;
  analysis_type : string;
  context : option string
}.

Record GeminiPRReviewRequest : Type := mkReviewRequest {
  pr_url : string;
  focus_areas : list string;
  detailed_feedback : bool
}.

(** The [GeminiResponse] response model, as the JSON object it is
    serialised to. *)
Definition GeminiResponse
  (analysis status confidence_score : string) (suggestions : list string)
  (collaboration_data : value) : value :=
  VDict [("analysis", VStr analysis);
         ("status", VStr status);
         ("confidence_score", VFloat confidence_score);
         ("suggestions", strs suggestions);
         ("collaboration_data", collaboration_data)].

(** The configuration gate of this module. *)
Definition get_gemini_config : M value :=
  try_except
    (config <- load_config ;;
     gemini_config <- lift (get config "gemini_agent" (VDict [])) ;;
     enabled <- lift (get gemini_config "enabled" (VBool false)) ;;
     if negb (truthy enabled)
     then raise (HTTPException 503 "Gemini agent not enabled")
     else ret gemini_config)
    (fun e => raise (HTTPException 500 ("Configuration error: " ++ str_exn e))).

Definition newline : string := String (ascii_of_nat 10) "".

Fixpoint lookup (k : string) (l : list (string * string)) : option string :=
  match l with
  | [] => None
  | (k', v) :: rest => if String.eqb k k' then Some v else lookup k rest
  end.

(** The prompt the handler assembles (and then does not use). *)
Definition build_prompt (request : GeminiAnalysisRequest) : string :=
  let general :=
    "Analyze this code for overall quality and suggest improvements: " ++ code request in
  let analysis_prompts :=
    [("general", general);
     ("security",
      "Perform a security analysis of this code and identify vulnerabilities: "
        ++ code request);
     ("performance",
      "Analyze this code for performance issues and optimization opportunities: "
        ++ code request);
     ("style",
      "Review this code for style consistency and best practices: " ++ code request)] in
  let prompt :=
    match lookup (analysis_type request) analysis_prompts with
    | Some p => p
    | None => general
    end in
  match context request with
  | Some c =>
      if String.eqb c "" then prompt
      else prompt ++ newline ++ newline ++ "Additional context: " ++ c
  | None => prompt
  end.

(** [POST /gemini/analyze] *)
Definition analyze_code_with_gemini (request : GeminiAnalysisRequest) : M value :=
  try_except
    (gemini_config <- get_gemini_config ;;
     let prompt := build_prompt request in
     let mock_analysis :=
       "Gemini analysis for " ++ analysis_type request ++ ": The code shows "
         ++ task request
         ++ ". Key findings include structure improvements and optimization opportunities." in
     let suggestions :=
       ["Consider adding type hints for better code clarity";
        "Implement error handling for edge cases";
        "Add comprehensive unit tests";
        "Consider performance optimizations"] in
     config <- load_config ;;
     cross_enabled <- lift (config_flag config "cross_agent" "enabled") ;;
     let collaboration_data :=
       if truthy cross_enabled
       then VDict [("jules_integration", VBool true);
                   ("shared_context", VDict
                      [("analysis_type", VStr (analysis_type request));
                       ("task_description", VStr (task request));
                       ("recommendations", strs (firstn 2 suggestions))])]
       else VNone in
     ret (GeminiResponse mock_analysis "completed" "0.85" suggestions collaboration_data))
    (fun e => raise (HTTPException 500 ("Gemini analysis error: " ++ str_exn e))).

(** [POST /gemini/review-pr] *)
Definition review_pull_request (request : GeminiPRReviewRequest) : M value :=
  try_except
    (gemini_config <- get_gemini_config ;;
     pr_review_enabled <- lift (get gemini_config "pr_review_enabled" (VBool false)) ;;
     if negb (truthy pr_review_enabled)
     then raise (HTTPException 503 "PR review not enabled for Gemini agent")
     else
       ret (VDict
         [("pr_url", VStr (pr_url request));
          ("review_status", VStr "completed");
          ("overall_score", VFloat "8.5");
          ("findings", VDict
            [("security",
              strs ["No critical security issues found";
                    "Consider input validation in line 42"]);
             ("performance",
              strs ["Algorithm efficiency looks good";
                    "Consider caching for repeated operations"]);
             ("best_practices",
              strs ["Good code structure"; "Add more descriptive variable names"])]);
          ("approval_recommendation", VStr "Approve with minor suggestions");
          ("collaboration_notes", VStr "Ready for Jules agent implementation if needed")]))
    (fun e => raise (HTTPException 500 ("PR review error: " ++ str_exn e))).

(** [GET /gemini/capabilities] *)
Definition get_gemini_capabilities : M value :=
  try_except
    (gemini_config <- get_gemini_config ;;
     enabled <- lift (get gemini_config "enabled" (VBool false)) ;;
     model <- lift (get gemini_config "model" (VStr "gemini-pro")) ;;
     pr_review_enabled <- lift (get gemini_config "pr_review_enabled" (VBool false)) ;;
     code_analysis_enabled <-
       lift (get gemini_config "code_analysis_enabled" (VBool false)) ;;
     ret (VDict
       [("agent_type", VStr "Gemini Coding Agent");
        ("enabled", enabled);
        ("model", model);
        ("pr_review_enabled", pr_review_enabled);
        ("code_analysis_enabled", code_analysis_enabled);
        ("capabilities",
         strs ["Code Quality Analysis";
               "Security Vulnerability Detection";
               "Performance Optimization Suggestions";
               "Code Style and Best Practices Review";
               "Pull Request Review and Scoring";
               "Cross-Agent Collaboration"]);
        ("analysis_types", strs ["general"; "security"; "performance"; "style"]);
        ("supported_languages",
         strs ["Python"; "JavaScript"; "TypeScript"; "Java"; "C++"; "Go"; "Rust"; "C#"]);
        ("integration_status", VStr "Active")]))
    (fun e => raise (HTTPException 500 ("Error getting capabilities: " ++ str_exn e))).

(** [POST /gemini/collaborate]; [import uuid] is a statement of the
    function body, so [uuid] is a local name here. *)
Definition request_gemini_collaboration
  (task_description analysis_focus : string) (jules_integration : bool) : M value :=
  try_except
    (config <- load_config ;;
     cross_enabled <- lift (config_flag config "cross_agent" "enabled") ;;
     if negb (truthy cross_enabled)
     then raise (HTTPException 503 "Cross-agent collaboration not enabled")
     else
       collaboration_id <- uuid4_str ;;
       ret (VDict
         [("collaboration_id", VStr collaboration_id);
          ("gemini_role", VStr "Analysis and Requirements Specialist");
          ("task_analysis", VDict
            [("requirements", VStr ("Analyzed requirements for: " ++ task_description));
             ("security_considerations", VStr "Security review completed");
             ("performance_notes", VStr "Performance requirements identified");
             ("implementation_guidance",
              VStr "Ready to provide guidance to Jules agent")]);
          ("next_steps", VDict
            [("for_jules",
              strs ["Implement based on security requirements";
                    "Follow performance guidelines";
                    "Use recommended design patterns"]);
             ("collaboration_status", VStr "Ready for handoff to Jules agent")])]))
    (fun e => raise (HTTPException 500 ("Collaboration error: " ++ str_exn e))).

(** [GET /gemini/health]: the only handler whose [except] clause returns a
    payload. *)
Definition health_check : M value :=
  try_except
    (gemini_config <- get_gemini_config ;;
     api_key_env <- lift (get gemini_config "api_key_env" (VStr "GEMINI_API_KEY")) ;;
     api_key <- getenv api_key_env ;;
     let api_key_configured := truthy api_key in
     enabled <- lift (get gemini_config "enabled" (VBool false)) ;;
     model <- lift (get gemini_config "model" (VStr "gemini-pro")) ;;
     code_analysis <- lift (get gemini_config "code_analysis_enabled" (VBool false)) ;;
     pr_review <- lift (get gemini_config "pr_review_enabled" (VBool false)) ;;
     ret (VDict
       [("status", VStr "healthy");
        ("gemini_enabled", enabled);
        ("api_key_configured", VBool api_key_configured);
        ("model", model);
        ("services", VDict [("code_analysis", code_analysis); ("pr_review", pr_review)])]))
    (fun e => ret (VDict [("status", VStr "unhealthy"); ("error", VStr (str_exn e))])).

End GeminiIntegration.

(* ================================================================= *)
(** ** [src/api/jules_integration.py] *)

Module JulesIntegration.

(** Names bound at module scope.  [uuid] is not among them: the only
    [import uuid] of the file is a statement inside [process_jules_task],
    where it binds a local name. *)
Definition module_globals : list string :=
  ["APIRouter"; "BackgroundTasks"; "HTTPException"; "BaseModel"; "Dict";
   "Any"; "Optional"; "json"; "asyncio"; "Path"; "router"; "JulesTask";
   "JulesTaskResponse"; "process_jules_task"; "get_jules_task_status";
   "get_jules_capabilities"; "request_collaboration"].

Record JulesTask : Type := mkJulesTask {
  prompt : string;
  github_repo_url : string;
  github_branch : string;
  test_command : option string;
  collaboration_mode : bool
}.

Section Handlers.
(** Pydantic's validation of a [bool] field of a response model. *)
Variable validate_bool : value -> result bool.

(** [POST /jules/task] *)
Definition process_jules_task (task : JulesTask) : M value :=
  try_except
    (config <- load_config ;;
     jules_config <- lift (get config "jules_agent" (VDict [])) ;;
     enabled <- lift (get jules_config "enabled" (VBool false)) ;;
     if negb (truthy enabled)
     then raise (HTTPException 503 "Jules agent not enabled")
     else
       (* [import uuid] here: a local binding *)
       task_id <- uuid4_str ;;
       cross_agent_enabled <- lift (config_flag config "cross_agent" "enabled") ;;
       collaboration_enabled <- lift (validate_bool cross_agent_enabled) ;;
       ret (VDict
         [("task_id", VStr task_id);
          ("status", VStr "accepted");
          ("message",
           VStr ("Jules task accepted: " ++ take_chars 50 (prompt task) ++ "..."));
          ("collaboration_enabled", VBool collaboration_enabled)]))
    (fun e => raise (HTTPException 500 ("Jules integration error: " ++ str_exn e))).
End Handlers.

(** [GET /jules/status/{task_id}] *)
Definition get_jules_task_status (task_id : string) : M value :=
  ret (VDict
    [("task_id", VStr task_id);
     ("status", VStr "processing");
     ("progress", VStr "Task in Jules agent queue");
     ("estimated_completion", VStr "2-5 minutes")]).

(** [GET /jules/capabilities] *)
Definition get_jules_capabilities : M value :=
  try_except
    (config <- load_config ;;
     jules_config <- lift (get config "jules_agent" (VDict [])) ;;
     enabled <- lift (get jules_config "enabled" (VBool false)) ;;
     multi_agent_mode <- lift (get jules_config "multi_agent_mode" (VBool false)) ;;
     github_integration <- lift (get jules_config "github_integration" (VBool false)) ;;
     ret (VDict
       [("agent_type", VStr "Jules Multi-Agent System");
        ("enabled", enabled);
        ("multi_agent_mode", multi_agent_mode);
        ("github_integration", github_integration);
        ("capabilities",
         strs ["Task Planning (PlannerAgent)";
               "Code Development (DeveloperAgent)";
               "Code Review (ReviewerAgent)";
               "Branch Naming (BranchNamingAgent)";
               "Pull Request Creation (PRWriterAgent)";
               "Repository Analysis (EmbedderAgent)"]);
        ("supported_languages",
         strs ["Python"; "JavaScript"; "TypeScript"; "Java"; "C++"; "Go"; "Rust"]);
        ("integration_status", VStr "Active")]))
    (fun e => raise (HTTPException 500 ("Error getting capabilities: " ++ str_exn e))).

(** The [try] block of [request_collaboration]; [uuid] is looked up in the
    module's globals. *)
Definition request_collaboration_try
  (task_description collaboration_type : string) : M value :=
  config <- load_config ;;
  cross_enabled <- lift (config_flag config "cross_agent" "enabled") ;;
  if negb (truthy cross_enabled)
  then raise (HTTPException 503 "Cross-agent collaboration not enabled")
  else
    resolve_global module_globals "uuid" ;;;
    collaboration_id <- uuid4_str ;;
    ret (VDict
      [("collaboration_id", VStr collaboration_id);
       ("status", VStr "initiated");
       ("participants", strs ["jules-agent"; "gemini-coding-agent"]);
       ("task", VStr task_description);
       ("workflow", VDict
         [("step_1", VStr "Gemini analysis and requirements gathering");
          ("step_2", VStr "Jules implementation and code generation");
          ("step_3", VStr "Cross-validation and quality assurance");
          ("step_4", VStr "Automated testing and deployment")])]).

(** [POST /jules/collaborate] *)
Definition request_collaboration (task_description collaboration_type : string) : M value :=
  try_except
    (request_collaboration_try task_description collaboration_type)
    (fun e => raise (HTTPException 500 ("Collaboration error: " ++ str_exn e))).

End JulesIntegration.

(* ================================================================= *)
(** ** Sample inputs *)

Module Samples.

Definition config (cross jules gemini : bool) : value :=
  VDict [("cross_agent", VDict [("enabled", VBool cross)]);
         ("jules_agent", VDict [("enabled", VBool jules)]);
         ("gemini_agent", VDict [("enabled", VBool gemini)])].

(** A world whose [n]-th random draw is [draws n]. *)
Definition world_with (config : value) (draws : nat -> Z) : world :=
  mkWorld (Parsed config) [] draws 0 "2025-01-01T00:00:00" [].

Definition counting (n : nat) : Z := Z.of_nat n.

(** Draws that differ from one another only in bit 76. *)
Definition version_bit_only (n : nat) : Z := (Z.of_nat n * 2 ^ 76)%Z.

Definition plain_repr (s : string) : string := "'" ++ s ++ "'".

Definition request (workflow_type : string) : MultiAgentWorkflow.CollaborationRequest :=
  MultiAgentWorkflow.mkRequest "add an endpoint" "medium" workflow_type None ["fast"].

Definition security_request : GeminiIntegration.GeminiAnalysisRequest :=
  GeminiIntegration.mkAnalysisRequest "x = eval(y)" "input handling" "security" None.

Definition review_request : GeminiIntegration.GeminiPRReviewRequest :=
  GeminiIntegration.mkReviewRequest "https://example.org/pr/1" ["security"] true.

(** The source's phases, with an implementation phase that fails. *)
Definition failing_implementation (e : exn) : MultiAgentWorkflow.phase_functions :=
  MultiAgentWorkflow.mkPhases
    MultiAgentWorkflow.simulate_gemini_analysis
    (fun _ _ _ => raise e)
    MultiAgentWorkflow.cross_validate_solution
    MultiAgentWorkflow.finalize_collaboration.

(** Cross-agent mode off, and agent entries that are not objects. *)
Definition cross_off_malformed_agents : value :=
  VDict [("cross_agent", VDict [("enabled", VBool false)]);
         ("jules_agent", VStr "on");
         ("gemini_agent", VList [])].

(** Phase results other than the ones the source produces. *)
Definition analysis_stub : value :=
  VDict [("task_analysis",
          VDict [("security_considerations", strs ["Input validation"])]);
         ("implementation_guidance", VStr "none")].

Definition implementation_stub : value := VDict [("implementation_details", VInt 7)].

Definition validation_stub : value :=
  VDict [("consensus", VDict [("overall_quality_score", VFloat "3.5")])].

(** A configuration with everything switched on and no model named. *)
Definition gemini_ready (pr_review : bool) : value :=
  VDict [("cross_agent", VDict [("enabled", VBool true)]);
         ("jules_agent", VDict [("enabled", VBool true)]);
         ("gemini_agent",
          VDict [("enabled", VBool true);
                 ("pr_review_enabled", VBool pr_review);
                 ("api_key_env", VStr "KEY")])].

Definition world_in (config : value) (env : list (string * string)) : world :=
  mkWorld (Parsed config) env counting 0 "2025-01-01T00:00:00" [].

(** A validation that accepts booleans only. *)
Definition strict_bool (v : value) : result bool :=
  match v with
  | VBool b => Ok b
  | _ => Raise (PyExc "ValidationError" "Input should be a valid boolean")
  end.

Definition jules_task : JulesIntegration.JulesTask :=
  JulesIntegration.mkJulesTask "fix the login form" "https://example.org/repo" "main"
    None true.

(** The Gemini agent enabled, and a [cross_agent] entry that is text. *)
Definition gemini_on_cross_agent_text : value :=
  VDict [("cross_agent", VStr "yes");
         ("gemini_agent", VDict [("enabled", VBool true)])].

Definition enabled_world : world := world_with (config true true true) counting.

Definition colliding_world : world :=
  world_with (config true true true) version_bit_only.

Definition start_full : M value :=
  MultiAgentWorkflow.start_multi_agent_collaboration plain_repr
    (request "full_collaboration").

End Samples.

(* ================================================================= *)
(** * Properties *)

Definition detail (text : string) : value := VDict [("detail", VStr text)].

(** A computation that leaves the world as it found it and whose outcome
    is a function of the configuration file alone. *)
Definition reads_config_only {A} (m : M A) : Type :=
  { outcome : config_source -> result A | forall w, m w = (w, outcome (config_file w)) }.

(** Cross-agent mode and both agents are enabled in [config]. *)
Definition accepts_collaboration (config : value) : Prop :=
  exists c j g,
    config_flag config "cross_agent" "enabled" = Ok c /\ truthy c = true
    /\ config_flag config "jules_agent" "enabled" = Ok j /\ truthy j = true
    /\ config_flag config "gemini_agent" "enabled" = Ok g /\ truthy g = true.

(** Seconds spent in [asyncio.sleep] along a trace. *)
Fixpoint total_sleep (trace : list event) : nat :=
  match trace with
  | [] => 0
  | Sleep seconds :: rest => seconds + total_sleep rest
  | _ :: rest => total_sleep rest
  end.

(** The lines printed along a trace. *)
Fixpoint printed (trace : list event) : list string :=
  match trace with
  | [] => []
  | Print line :: rest => line :: printed rest
  | _ :: rest => printed rest
  end.

(** The lines a run of the pipeline prints when every phase returns. *)
Definition pipeline_lines (collaboration_id : string) : list string :=
  ["[" ++ collaboration_id ++ "] Phase 1: Starting Gemini analysis...";
   "[" ++ collaboration_id ++ "] Phase 2: Starting Jules implementation...";
   "[" ++ collaboration_id ++ "] Phase 3: Cross-validation...";
   "[" ++ collaboration_id ++ "] Phase 4: Finalizing results...";
   "[" ++ collaboration_id ++ "] Collaboration completed successfully!"].

(** The tasks scheduled along a trace. *)
Fixpoint scheduled (trace : list event) : list task :=
  match trace with
  | [] => []
  | AddTask t :: rest => t :: scheduled rest
  | _ :: rest => scheduled rest
  end.

(** Whether the environment holds a non-empty value under [key]: all that
    [bool(os.getenv(key))] tells. *)
Definition variable_is_set (env : list (string * string)) (key : string) : bool :=
  match find (fun kv => String.eqb key (fst kv)) env with
  | Some kv => negb (String.eqb (snd kv) "")
  | None => false
  end.

(** The progress object of the status endpoint. *)
Definition fixed_progress : value :=
  VDict [("gemini_analysis", VStr "completed");
         ("jules_implementation", VStr "completed");
         ("cross_validation", VStr "completed");
         ("finalization", VStr "in_progress");
         ("overall_progress", VStr "90%")].

(** Unfolds the monad's operations and rewrites with the facts at hand. *)
Ltac exec :=
  cbv beta iota zeta delta
    [serve try_except bind lift load_config raise ret respond fst snd negb andb].

(* ----------------------------------------------------------------- *)
(** ** Disabled components *)

Section StartCollaboration.
Import MultiAgentWorkflow.
Variable repr_str : string -> string.

(** X1: the handler answers 200 or 500, whatever the world and the
    request: the 503 raised inside the [try] block never leaves it. *)
Lemma start_collaboration_status w request :
  let s := status (serve (start_multi_agent_collaboration repr_str request) w) in
  s = 200 \/ s = 500.
Proof.
  unfold start_multi_agent_collaboration. exec.
  destruct (config_file w); [right; reflexivity|].
  destruct (config_flag config "cross_agent" "enabled") as [c|]; [|right; reflexivity].
  destruct (truthy c); [|right; reflexivity].
  destruct (config_flag config "jules_agent" "enabled") as [j|]; [|right; reflexivity].
  destruct (config_flag config "gemini_agent" "enabled") as [g|]; [|right; reflexivity].
  destruct (truthy j), (truthy g); try (right; reflexivity).
  left. reflexivity.
Qed.

(** C1 (the code departs from it): with cross-agent mode enabled and an
    agent disabled, [POST /multi-agent/start-collaboration] answers 500,
    not 503.  The [HTTPException(503)] is raised inside the [try] block
    whose [except Exception] clause catches it and raises a 500; the two
    flags reach the client only inside the text of that wrapping error. *)
Theorem start_collaboration_disabled_agent_is_500 w config request c j g :
  config_file w = Parsed config ->
  config_flag config "cross_agent" "enabled" = Ok c -> truthy c = true ->
  config_flag config "jules_agent" "enabled" = Ok j ->
  config_flag config "gemini_agent" "enabled" = Ok g ->
  truthy j && truthy g = false ->
  serve (start_multi_agent_collaboration repr_str request) w
  = mkResponse 500
      (detail ("Collaboration initiation error: 503: Both agents must be enabled. Jules: "
                 ++ str repr_str j ++ ", Gemini: " ++ str repr_str g)).
Proof.
  intros Hfile Hc Tc Hj Hg Off.
  unfold start_multi_agent_collaboration. exec.
  rewrite Hfile. exec. rewrite Hc. exec. rewrite Tc. exec.
  rewrite Hj. exec. rewrite Hg. exec.
  unfold andb in Off. rewrite Off. exec.
  reflexivity.
Qed.
End StartCollaboration.

Lemma start_collaboration_disabled_agent_is_500_witness :
  serve (MultiAgentWorkflow.start_multi_agent_collaboration Samples.plain_repr
           (Samples.request "full_collaboration"))
        (Samples.world_with (Samples.config true false true) Samples.counting)
  = mkResponse 500
      (detail "Collaboration initiation error: 503: Both agents must be enabled. Jules: False, Gemini: True").
Proof.
  exact (start_collaboration_disabled_agent_is_500 Samples.plain_repr
           (Samples.world_with (Samples.config true false true) Samples.counting)
           (Samples.config true false true) (Samples.request "full_collaboration")
           (VBool true) (VBool false) (VBool true)
           eq_refl eq_refl eq_refl eq_refl eq_refl eq_refl).
Defined.

Section Gates.
Import GeminiIntegration JulesIntegration.

Lemma gemini_gate_closed w config gemini_config g :
  config_file w = Parsed config ->
  get config "gemini_agent" (VDict []) = Ok gemini_config ->
  get gemini_config "enabled" (VBool false) = Ok g ->
  truthy g = false ->
  get_gemini_config w
  = (w, Raise (HTTPException 500 "Configuration error: 503: Gemini agent not enabled")).
Proof.
  intros Hfile Hsec Hg Off.
  unfold get_gemini_config. exec.
  rewrite Hfile. exec. rewrite Hsec. exec. rewrite Hg. exec. rewrite Off. exec.
  reflexivity.
Qed.

(** C2 (the code departs from it): no disabled component is reported as
    503.  With cross-agent mode off, [POST /jules/collaborate] answers
    500; with the Gemini agent off, the gate [get_gemini_config] raises a
    500, which [/gemini/analyze], [/gemini/review-pr] and
    [/gemini/capabilities] wrap in a second 500 and [/gemini/health] turns
    into a 200 payload.  Each 503 is raised inside a [try] block whose
    [except Exception] clause catches it. *)
Theorem disabled_component_is_reported_as_500 w config :
  config_file w = Parsed config ->
  (forall c task_description collaboration_type,
      config_flag config "cross_agent" "enabled" = Ok c -> truthy c = false ->
      serve (request_collaboration task_description collaboration_type) w
      = mkResponse 500
          (detail "Collaboration error: 503: Cross-agent collaboration not enabled"))
  /\ (forall gemini_config g,
        get config "gemini_agent" (VDict []) = Ok gemini_config ->
        get gemini_config "enabled" (VBool false) = Ok g ->
        truthy g = false ->
        (forall request,
            serve (analyze_code_with_gemini request) w
            = mkResponse 500
                (detail "Gemini analysis error: 500: Configuration error: 503: Gemini agent not enabled"))
        /\ (forall request,
              serve (review_pull_request request) w
              = mkResponse 500
                  (detail "PR review error: 500: Configuration error: 503: Gemini agent not enabled"))
        /\ serve get_gemini_capabilities w
           = mkResponse 500
               (detail "Error getting capabilities: 500: Configuration error: 503: Gemini agent not enabled")
        /\ serve health_check w
           = mkResponse 200
               (VDict [("status", VStr "unhealthy");
                       ("error",
                        VStr "500: Configuration error: 503: Gemini agent not enabled")])).
Proof.
  intros Hfile. split.
  - intros c td ct Hc Off.
    unfold request_collaboration, request_collaboration_try. exec.
    rewrite Hfile. exec. rewrite Hc. exec. rewrite Off. exec.
    reflexivity.
  - intros gc g Hsec Hg Off.
    pose proof (gemini_gate_closed w config gc g Hfile Hsec Hg Off) as Gate.
    repeat split; intros;
      unfold analyze_code_with_gemini, review_pull_request,
        get_gemini_capabilities, health_check;
      exec; rewrite Gate; reflexivity.
Qed.
End Gates.

Lemma disabled_component_is_reported_as_500_witness :
  status (serve (JulesIntegration.request_collaboration "add an endpoint" "analysis_and_implementation")
            (Samples.world_with (Samples.config false false false) Samples.counting))
  = 500
  /\ status (serve (GeminiIntegration.analyze_code_with_gemini Samples.security_request)
               (Samples.world_with (Samples.config false false false) Samples.counting))
     = 500.
Proof.
  pose proof (disabled_component_is_reported_as_500
                (Samples.world_with (Samples.config false false false) Samples.counting)
                (Samples.config false false false) eq_refl) as [Jules Gemini].
  split.
  - rewrite (Jules (VBool false) _ _ eq_refl eq_refl). reflexivity.
  - destruct (Gemini (VDict [("enabled", VBool false)]) (VBool false) eq_refl eq_refl eq_refl)
      as [Analyze _].
    rewrite Analyze. reflexivity.
Defined.

(* ----------------------------------------------------------------- *)
(** ** The unbound [uuid] of [/jules/collaborate] *)

Section JulesCollaborate.
Import JulesIntegration.

(** The handler answers 500 in every world, for every input. *)
Lemma jules_collaborate_never_succeeds w task_description collaboration_type :
  status (serve (request_collaboration task_description collaboration_type) w) = 500.
Proof.
  unfold request_collaboration, request_collaboration_try. exec.
  destruct (config_file w); [reflexivity|].
  destruct (config_flag config "cross_agent" "enabled") as [c|]; [|reflexivity].
  destruct (truthy c); reflexivity.
Qed.

(** C3: with cross-agent mode enabled, the [try] block of
    [POST /jules/collaborate] raises [NameError] at [uuid.uuid4()], before
    any random bytes are drawn, so the response is a 500 carrying that
    error; and the handler returns its workflow payload for no input at
    all. *)
Theorem jules_collaborate_name_error w config c task_description collaboration_type :
  config_file w = Parsed config ->
  config_flag config "cross_agent" "enabled" = Ok c -> truthy c = true ->
  request_collaboration_try task_description collaboration_type w
  = (w, Raise (PyExc "NameError" "name 'uuid' is not defined"))
  /\ serve (request_collaboration task_description collaboration_type) w
     = mkResponse 500 (detail "Collaboration error: name 'uuid' is not defined")
  /\ (forall w' task_description' collaboration_type',
        status (serve (request_collaboration task_description' collaboration_type') w')
        <> 200).
Proof.
  intros Hfile Hc On.
  assert (Try : request_collaboration_try task_description collaboration_type w
                = (w, Raise (PyExc "NameError" "name 'uuid' is not defined"))).
  { unfold request_collaboration_try. exec.
    rewrite Hfile. exec. rewrite Hc. exec. rewrite On. exec.
    reflexivity. }
  split; [exact Try|]. split.
  - unfold request_collaboration. exec. rewrite Try. reflexivity.
  - intros w' td' ct'. rewrite jules_collaborate_never_succeeds. discriminate.
Qed.
End JulesCollaborate.

Lemma jules_collaborate_name_error_witness :
  JulesIntegration.request_collaboration_try "add an endpoint" "analysis_and_implementation"
    (Samples.world_with (Samples.config true true true) Samples.counting)
  = (Samples.world_with (Samples.config true true true) Samples.counting,
     Raise (PyExc "NameError" "name 'uuid' is not defined")).
Proof.
  exact (proj1 (jules_collaborate_name_error
                  (Samples.world_with (Samples.config true true true) Samples.counting)
                  (Samples.config true true true) (VBool true)
                  "add an endpoint" "analysis_and_implementation"
                  eq_refl eq_refl eq_refl)).
Defined.

(* ----------------------------------------------------------------- *)
(** ** The background pipeline *)

Section Pipeline.
Import MultiAgentWorkflow.

(** C4: whatever the four phases do, [execute_collaboration_workflow]
    returns [None] and never raises; all it adds to what the phases left
    behind is one printed line, which for a phase that raised [e] is the
    error line; and the status endpoint answers after the run exactly as
    it did before, for every identifier. *)
Theorem pipeline_errors_are_only_logged
  (ph : phase_functions) (collaboration_id task_description workflow_type : string)
  (github_repo_url : option string) (requirements : list string) (w : world) :
  let phases :=
    workflow_phases ph collaboration_id task_description workflow_type
      github_repo_url requirements w in
  let run :=
    execute_collaboration_workflow_with ph collaboration_id task_description
      workflow_type github_repo_url requirements w in
  snd run = Ok VNone
  /\ (exists line, fst run = logged line (fst phases))
  /\ (forall e, snd phases = Raise e ->
        fst run
        = logged ("[" ++ collaboration_id ++ "] Collaboration error: " ++ str_exn e)
            (fst phases))
  /\ (forall any_id,
        serve (get_collaboration_status any_id) (fst run)
        = serve (get_collaboration_status any_id) w).
Proof.
  cbv zeta. unfold execute_collaboration_workflow_with, logged, print. exec.
  destruct (workflow_phases ph collaboration_id task_description workflow_type
              github_repo_url requirements w) as [w1 [locals | e]]; exec.
  - repeat split.
    + eexists. reflexivity.
    + intros e H. discriminate H.
  - repeat split.
    + eexists. reflexivity.
    + intros e' H. injection H as <-. reflexivity.
Qed.

(** With the phases of the source the run always completes, and leaves
    nothing but its trace: four announcements, three delays and the
    closing line.  No phase result is part of the world afterwards. *)
Lemma pipeline_trace cid task_description workflow_type github_repo_url requirements w :
  execute_collaboration_workflow cid task_description workflow_type
    github_repo_url requirements w
  = (mkWorld (config_file w) (environ w) (urandom w) (drawn w) (now w)
       (events w ++
          [Print ("[" ++ cid ++ "] Phase 1: Starting Gemini analysis...");
           Sleep 2;
           Print ("[" ++ cid ++ "] Phase 2: Starting Jules implementation...");
           Sleep 3;
           Print ("[" ++ cid ++ "] Phase 3: Cross-validation...");
           Sleep 1;
           Print ("[" ++ cid ++ "] Phase 4: Finalizing results...");
           Print ("[" ++ cid ++ "] Collaboration completed successfully!")]),
     Ok VNone).
Proof.
  unfold execute_collaboration_workflow, execute_collaboration_workflow_with,
    workflow_phases, source_phases, simulate_gemini_analysis,
    simulate_jules_implementation, cross_validate_solution,
    finalize_collaboration, print, sleep, emit.
  cbn. repeat rewrite <- app_assoc. reflexivity.
Qed.

(** A failure in phase 2: the analysis result is dropped, the error is
    printed, the run still returns [None]. *)
Lemma pipeline_failure_in_phase_2 e cid task_description workflow_type repo requirements w :
  execute_collaboration_workflow_with (Samples.failing_implementation e)
    cid task_description workflow_type repo requirements w
  = (mkWorld (config_file w) (environ w) (urandom w) (drawn w) (now w)
       (events w ++
          [Print ("[" ++ cid ++ "] Phase 1: Starting Gemini analysis...");
           Sleep 2;
           Print ("[" ++ cid ++ "] Phase 2: Starting Jules implementation...");
           Print ("[" ++ cid ++ "] Collaboration error: " ++ str_exn e)]),
     Ok VNone).
Proof.
  unfold execute_collaboration_workflow_with, workflow_phases,
    Samples.failing_implementation, simulate_gemini_analysis, print, sleep, emit.
  cbn. repeat rewrite <- app_assoc. reflexivity.
Qed.
End Pipeline.

Section Phases.
Import MultiAgentWorkflow.

(** X2: phase 2 hands on whatever security considerations the analysis
    it is given carries, after its three seconds of delay. *)
Lemma implementation_inherits_security task_description analysis repo w security :
  getpath analysis ["task_analysis"; "security_considerations"] = Ok security ->
  exists implementation,
    simulate_jules_implementation task_description analysis repo w
    = (fst (sleep 3 w), Ok implementation)
    /\ getpath implementation ["implementation_details"; "security_implemented"]
       = Ok security.
Proof.
  intros H. unfold simulate_jules_implementation. exec.
  cbn [getpath] in H.
  destruct (getitem analysis "task_analysis") as [ta|]; [|discriminate].
  destruct (getitem ta "security_considerations") as [sc|]; [|discriminate].
  injection H as <-.
  destruct (sleep 3 w) as [w' [[]|e]] eqn:S; [|discriminate S].
  eexists. split; reflexivity.
Qed.

(** X3: phase 4 leaves the world as it was, whether it returns or raises
    for a missing key: no delay, no output, no random bytes drawn. *)
Lemma finalization_is_immediate cid analysis implementation validation w :
  fst (finalize_collaboration cid analysis implementation validation w) = w.
Proof.
  unfold finalize_collaboration. exec.
  destruct (getitem validation "consensus") as [c|]; [|reflexivity].
  destruct (getitem c "overall_quality_score"); [|reflexivity].
  destruct (getitem analysis "implementation_guidance"); [|reflexivity].
  destruct (getitem implementation "implementation_details"); reflexivity.
Qed.

(** X4: phase 4 takes the score and the knowledge-transfer parts from
    the results it is given, whatever these are. *)
Lemma finalization_assembles cid analysis implementation validation w
      score insights learnings :
  getpath validation ["consensus"; "overall_quality_score"] = Ok score ->
  getpath analysis ["implementation_guidance"] = Ok insights ->
  getpath implementation ["implementation_details"] = Ok learnings ->
  exists final,
    finalize_collaboration cid analysis implementation validation w = (w, Ok final)
    /\ getpath final ["collaboration_summary"; "quality_score"] = Ok score
    /\ getpath final ["knowledge_transfer"; "gemini_insights"] = Ok insights
    /\ getpath final ["knowledge_transfer"; "jules_learnings"] = Ok learnings.
Proof.
  intros Hs Hi Hl. unfold finalize_collaboration. exec.
  cbn [getpath] in Hs, Hi, Hl.
  destruct (getitem validation "consensus") as [c|]; [|discriminate].
  destruct (getitem c "overall_quality_score"); [|discriminate].
  destruct (getitem analysis "implementation_guidance"); [|discriminate].
  destruct (getitem implementation "implementation_details"); [|discriminate].
  injection Hs as <-. injection Hi as <-. injection Hl as <-.
  eexists. repeat split; reflexivity.
Qed.



End Phases.


(* ----------------------------------------------------------------- *)
(** ** The ignored [workflow_type] *)

Section WorkflowType.
Import MultiAgentWorkflow.
Variable repr_str : string -> string.


End WorkflowType.


(* ----------------------------------------------------------------- *)
(** ** The status endpoint *)

Section Status.
Import MultiAgentWorkflow.

(** C7: for every identifier and in every world,
    [GET /multi-agent/status/{id}] answers 200 with the one fixed progress
    payload, whose overall progress is 90%; it reads nothing and changes
    nothing, and apart from echoing the identifier the body is the same
    for all identifiers. *)
Theorem status_is_fixed (w : world) (collaboration_id : string) :
  let r := serve (get_collaboration_status collaboration_id) w in
  status r = 200
  /\ getitem (body r) "progress" = Ok fixed_progress
  /\ getpath (body r) ["progress"; "overall_progress"] = Ok (VStr "90%")
  /\ getitem (body r) "collaboration_id" = Ok (VStr collaboration_id)
  /\ fst (get_collaboration_status collaboration_id w) = w
  /\ (forall w', serve (get_collaboration_status collaboration_id) w' = r)
  /\ (forall other_id,
        without "collaboration_id" (body (serve (get_collaboration_status other_id) w))
        = without "collaboration_id" (body r)).
Proof.
  cbv zeta. repeat split.
Qed.
End Status.

(* ----------------------------------------------------------------- *)
(** ** Security analysis *)

Section Analyze.
Import GeminiIntegration.

Lemma prefix_app (needle rest : string) : String.prefix needle (needle ++ rest) = true.
Proof.
  induction needle as [|a needle IH]; simpl.
  - destruct rest; reflexivity.
  - destruct (ascii_dec a a) as [_|Ne]; [exact IH | contradiction].
Qed.

(** [contains] finds a needle wherever it was spliced in. *)
Lemma contains_infix (before needle after : string) :
  contains needle (before ++ needle ++ after) = true.
Proof.
  assert (Step : forall h, contains needle h
                          = String.prefix needle h
                            || match h with
                               | EmptyString => false
                               | String _ rest => contains needle rest
                               end)
    by (intros h; destruct h; reflexivity).
  induction before as [|a before IH].
  - simpl append. rewrite Step, prefix_app. reflexivity.
  - rewrite Step. cbn [append]. rewrite IH. apply orb_true_r.
Qed.

(** With the Gemini agent enabled the gate lets the configuration of the
    agent through. *)
Lemma gemini_gate_open w config gemini_config g :
  config_file w = Parsed config ->
  get config "gemini_agent" (VDict []) = Ok gemini_config ->
  get gemini_config "enabled" (VBool false) = Ok g ->
  truthy g = true ->
  get_gemini_config w = (w, Ok gemini_config).
Proof.
  intros Hfile Hsec Hg On.
  unfold get_gemini_config. exec.
  rewrite Hfile. exec. rewrite Hsec. exec. rewrite Hg. exec. rewrite On.
  reflexivity.
Qed.

(** C9 (as amended): with the Gemini agent enabled and a [cross_agent]
    entry that is absent or an object, [POST /gemini/analyze] with analysis
    type "security" and non-empty code answers 200 with an [analysis] text
    that contains the word "security" and a [suggestions] list of at least
    one entry. *)
Theorem security_analysis_response w config gemini_config g c request :
  config_file w = Parsed config ->
  get config "gemini_agent" (VDict []) = Ok gemini_config ->
  get gemini_config "enabled" (VBool false) = Ok g ->
  truthy g = true ->
  config_flag config "cross_agent" "enabled" = Ok c ->
  analysis_type request = "security" ->
  code request <> "" ->
  let r := serve (analyze_code_with_gemini request) w in
  status r = 200
  /\ exists analysis suggestions,
      getitem (body r) "analysis" = Ok (VStr analysis)
      /\ contains "security" analysis = true
      /\ getitem (body r) "suggestions" = Ok (VList suggestions)
      /\ 1 <= List.length suggestions.
Proof.
  intros Hfile Hsec Hg On Hc Htype _. cbv zeta.
  unfold analyze_code_with_gemini. exec.
  rewrite (gemini_gate_open w config gemini_config g Hfile Hsec Hg On). exec.
  rewrite Hfile. exec. rewrite Hc. exec.
  split; [reflexivity|].
  eexists _, _. split; [reflexivity|]. split; [|split; [reflexivity|]].
  - rewrite Htype. apply (contains_infix "Gemini analysis for " "security").
  - simpl. lia.
Qed.
End Analyze.

(** C9 as stated fails: with the Gemini agent enabled, a security
    analysis of non-empty code is answered with 500 when the [cross_agent]
    entry of the configuration is not an object, because the handler reads
    that entry after the gate has let the request through. *)
Lemma security_analysis_needs_cross_agent_object :
  config_file (Samples.world_with Samples.gemini_on_cross_agent_text Samples.counting)
  = Parsed Samples.gemini_on_cross_agent_text
  /\ config_flag Samples.gemini_on_cross_agent_text "gemini_agent" "enabled"
     = Ok (VBool true)
  /\ GeminiIntegration.analysis_type Samples.security_request = "security"
  /\ GeminiIntegration.code Samples.security_request <> ""
  /\ serve (GeminiIntegration.analyze_code_with_gemini Samples.security_request)
       (Samples.world_with Samples.gemini_on_cross_agent_text Samples.counting)
     = mkResponse 500
         (detail "Gemini analysis error: 'str' object has no attribute 'get'").
Proof.
  repeat split. discriminate.
Qed.

Lemma security_analysis_response_witness :
  status (serve (GeminiIntegration.analyze_code_with_gemini Samples.security_request)
            (Samples.world_with (Samples.config false false true) Samples.counting))
  = 200.
Proof.
  refine (proj1 (security_analysis_response
                   (Samples.world_with (Samples.config false false true) Samples.counting)
                   (Samples.config false false true)
                   (VDict [("enabled", VBool true)]) (VBool true) (VBool false)
                   Samples.security_request
                   eq_refl eq_refl eq_refl eq_refl eq_refl eq_refl _)).
  discriminate.
Defined.

(* ----------------------------------------------------------------- *)
(** ** The capabilities endpoints *)

Section ConfigOnly.
Context {A B : Type}.

Lemma ret_reads_config_only (a : A) : reads_config_only (ret a).
Proof. exists (fun _ => Ok a). reflexivity. Qed.

Lemma raise_reads_config_only (e : exn) : reads_config_only (@raise A e).
Proof. exists (fun _ => Raise e). reflexivity. Qed.

Lemma lift_reads_config_only (r : result A) : reads_config_only (lift r).
Proof. exists (fun _ => r). reflexivity. Qed.

Lemma bind_reads_config_only (m : M A) (k : A -> M B) :
  reads_config_only m -> (forall a, reads_config_only (k a)) ->
  reads_config_only (bind m k).
Proof.
  intros [f Hf] Hk.
  exists (fun c => match f c with
                   | Ok a => proj1_sig (Hk a) c
                   | Raise e => Raise e
                   end).
  intros w. unfold bind. rewrite Hf.
  destruct (f (config_file w)) as [a|e]; [|reflexivity].
  apply (proj2_sig (Hk a)).
Qed.

Lemma try_reads_config_only (m : M A) (handler : exn -> M A) :
  reads_config_only m -> (forall e, reads_config_only (handler e)) ->
  reads_config_only (try_except m handler).
Proof.
  intros [f Hf] Hh.
  exists (fun c => match f c with
                   | Ok a => Ok a
                   | Raise e => proj1_sig (Hh e) c
                   end).
  intros w. unfold try_except. rewrite Hf.
  destruct (f (config_file w)) as [a|e]; [reflexivity|].
  apply (proj2_sig (Hh e)).
Qed.

Lemma if_reads_config_only (b : bool) (m1 m2 : M A) :
  reads_config_only m1 -> reads_config_only m2 ->
  reads_config_only (if b then m1 else m2).
Proof. destruct b; auto. Qed.
End ConfigOnly.

Lemma load_config_reads_config_only : reads_config_only load_config.
Proof.
  exists (fun c => match c with Unreadable e => Raise e | Parsed v => Ok v end).
  intros w. unfold load_config. destruct (config_file w); reflexivity.
Qed.

(** Decomposes a handler into the operations above. *)
Ltac config_only :=
  repeat first
    [ apply load_config_reads_config_only
    | apply ret_reads_config_only
    | apply raise_reads_config_only
    | apply lift_reads_config_only
    | apply if_reads_config_only
    | apply try_reads_config_only; [|intro]
    | apply bind_reads_config_only; [|intro] ].

Lemma multi_agent_capabilities_reads_config_only :
  reads_config_only MultiAgentWorkflow.get_multi_agent_capabilities.
Proof. unfold MultiAgentWorkflow.get_multi_agent_capabilities. config_only. Qed.

Lemma gemini_gate_reads_config_only :
  reads_config_only GeminiIntegration.get_gemini_config.
Proof. unfold GeminiIntegration.get_gemini_config. config_only. Qed.

Lemma gemini_capabilities_reads_config_only :
  reads_config_only GeminiIntegration.get_gemini_capabilities.
Proof.
  unfold GeminiIntegration.get_gemini_capabilities.
  apply try_reads_config_only; [|intro; config_only].
  apply bind_reads_config_only; [apply gemini_gate_reads_config_only|intro].
  config_only.
Qed.

Lemma jules_capabilities_reads_config_only :
  reads_config_only JulesIntegration.get_jules_capabilities.
Proof. unfold JulesIntegration.get_jules_capabilities. config_only. Qed.

(** Calling such a handler twice in a row, or in two worlds that share the
    configuration file, gives the same response, and the world is left
    untouched. *)
Lemma config_only_is_idempotent (handler : M value) :
  reads_config_only handler ->
  forall w,
    fst (handler w) = w
    /\ serve handler (fst (handler w)) = serve handler w
    /\ (forall w', config_file w' = config_file w -> serve handler w' = serve handler w).
Proof.
  intros [f Hf] w. unfold serve. rewrite !Hf. cbn [fst snd].
  repeat split. intros w' Same. rewrite Hf, Same. reflexivity.
Qed.

(** C10: each capabilities endpoint ([/multi-agent/capabilities],
    [/gemini/capabilities], [/jules/capabilities]) leaves the world
    untouched, answers a second call exactly as the first, and answers alike
    in any two worlds whose configuration file is the same. *)
Theorem capabilities_are_idempotent (w : world) :
  let idempotent (handler : M value) :=
    fst (handler w) = w
    /\ serve handler (fst (handler w)) = serve handler w
    /\ (forall w', config_file w' = config_file w -> serve handler w' = serve handler w) in
  idempotent MultiAgentWorkflow.get_multi_agent_capabilities
  /\ idempotent GeminiIntegration.get_gemini_capabilities
  /\ idempotent JulesIntegration.get_jules_capabilities.
Proof.
  cbv zeta. split; [|split]; apply config_only_is_idempotent.
  - apply multi_agent_capabilities_reads_config_only.
  - apply gemini_capabilities_reads_config_only.
  - apply jules_capabilities_reads_config_only.
Qed.

(* ----------------------------------------------------------------- *)
(** ** Collaboration identifiers *)

Section Identifiers.
Import UUID.
Local Open Scope Z_scope.

Lemma hex_value_digit d : 0 <= d < 16 -> hex_value (hex_digit d) = d.
Proof.
  intros H.
  assert (C : d = 0 \/ d = 1 \/ d = 2 \/ d = 3 \/ d = 4 \/ d = 5 \/ d = 6 \/ d = 7
              \/ d = 8 \/ d = 9 \/ d = 10 \/ d = 11 \/ d = 12 \/ d = 13 \/ d = 14
              \/ d = 15) by lia.
  repeat (destruct C as [-> | C]; [reflexivity|]). subst d. reflexivity.
Qed.

Lemma append_last_inj s1 s2 c1 c2 :
  (s1 ++ String c1 "" = s2 ++ String c2 "")%string -> s1 = s2 /\ c1 = c2.
Proof.
  revert s2. induction s1 as [|a s1 IH]; intros [|b s2] H; simpl in H.
  - injection H as ->. auto.
  - injection H as _ H. destruct s2; discriminate H.
  - injection H as _ H. destruct s1; discriminate H.
  - injection H as -> H. destruct (IH _ H) as [-> ->]. auto.
Qed.

Lemma hex_fixed_length k n : String.length (hex_fixed k n) = k.
Proof.
  assert (Snoc : forall (s : string) c, String.length (s ++ String c "") = S (String.length s))
    by (intros s c; induction s as [|? s IHs]; simpl; [|rewrite IHs]; reflexivity).
  revert n. induction k as [|k IH]; intros n; simpl; [reflexivity|].
  rewrite Snoc, IH. reflexivity.
Qed.

Lemma hex_fixed_inj k a b :
  0 <= a < 16 ^ Z.of_nat k -> 0 <= b < 16 ^ Z.of_nat k ->
  hex_fixed k a = hex_fixed k b -> a = b.
Proof.
  revert a b. induction k as [|k IH]; intros a b Ha Hb H.
  - simpl in Ha, Hb. lia.
  - rewrite Nat2Z.inj_succ, Z.pow_succ_r in Ha, Hb by lia.
    simpl in H. apply append_last_inj in H as [Hhigh Hlow].
    apply IH in Hhigh; try (split; [apply Z.div_pos; lia | apply Z.div_lt_upper_bound; lia]).
    apply (f_equal hex_value) in Hlow.
    rewrite !hex_value_digit in Hlow by (apply Z.mod_pos_bound; lia).
    rewrite (Z.div_mod a 16), (Z.div_mod b 16) by lia. congruence.
Qed.

Lemma ungroup_group x : String.length x = 32%nat -> ungroup (group x) = x.
Proof.
  intros H.
  do 32 (destruct x as [|? x]; [discriminate H|]).
  destruct x; [reflexivity | discriminate H].
Qed.

Lemma group_length x : String.length x = 32%nat -> String.length (group x) = 36%nat.
Proof.
  intros H.
  do 32 (destruct x as [|? x]; [discriminate H|]).
  destruct x; [reflexivity | discriminate H].
Qed.

Lemma v4_int_masked d :
  0 <= d < 2 ^ 128 -> v4_int d = Z.lor (Z.land d random_mask) fixed_bits.
Proof.
  intros H.
  assert (D : d = Z.land d (Z.ones 128)) by (rewrite Z.land_ones by lia; symmetry; apply Z.mod_small; exact H).
  unfold v4_int, random_mask, fixed_bits.
  rewrite D at 1.
  rewrite !Z.land_lor_distr_l, <- !Z.land_assoc, <- Z.lor_assoc.
  reflexivity.
Qed.

Lemma v4_int_range d : 0 <= d < 2 ^ 128 -> 0 <= v4_int d < 2 ^ 128.
Proof.
  intros H. rewrite (v4_int_masked d H).
  set (x := Z.lor (Z.land d random_mask) fixed_bits).
  assert (X : x = x mod 2 ^ 128).
  { rewrite <- Z.land_ones by lia. unfold x.
    rewrite Z.land_lor_distr_l, <- Z.land_assoc. reflexivity. }
  rewrite X. apply Z.mod_pos_bound. lia.
Qed.

Lemma v4_int_eq_iff d1 d2 :
  0 <= d1 < 2 ^ 128 -> 0 <= d2 < 2 ^ 128 ->
  v4_int d1 = v4_int d2 <-> Z.land d1 random_mask = Z.land d2 random_mask.
Proof.
  intros H1 H2. rewrite (v4_int_masked d1 H1), (v4_int_masked d2 H2). split.
  - intros E. apply (f_equal (fun x => Z.land x random_mask)) in E.
    rewrite !Z.land_lor_distr_l, <- !Z.land_assoc, Z.land_diag in E.
    change (Z.land fixed_bits random_mask) with 0 in E.
    rewrite !Z.lor_0_r in E. exact E.
  - intros ->. reflexivity.
Qed.

Lemma to_str_inj a b :
  0 <= a < 2 ^ 128 -> 0 <= b < 2 ^ 128 -> to_str a = to_str b -> a = b.
Proof.
  intros Ha Hb E. unfold to_str in E.
  apply (f_equal ungroup) in E.
  rewrite !ungroup_group in E by apply hex_fixed_length.
  apply (hex_fixed_inj 32); [exact Ha | exact Hb | exact E].
Qed.

Lemma to_str_length n : String.length (to_str n) = 36%nat.
Proof. apply group_length, hex_fixed_length. Qed.

End Identifiers.

Section FreshIdentifiers.
Import MultiAgentWorkflow.
Variable repr_str : string -> string.

(** An accepted request: one draw is consumed, one task is scheduled, and
    the initial status record names the identifier made from that draw. *)
Lemma start_collaboration_accepted w config request :
  config_file w = Parsed config -> accepts_collaboration config ->
  let id := UUID.to_str (UUID.v4_int (next_draw w)) in
  start_multi_agent_collaboration repr_str request w
  = (mkWorld (config_file w) (environ w) (urandom w) (S (drawn w)) (now w)
       (events w ++
          [AddTask (mkTask id (task_description request) (workflow_type request)
                      (github_repo_url request) (specific_requirements request))]),
     Ok (CollaborationStatus id "initiated" "gemini_analysis"
           ["gemini-coding-agent"; "jules-agent"]
           [("phase_1", VStr "Starting Gemini analysis");
            ("overall_progress", VStr "5%")]
           (Some "5-10 minutes"))).
Proof.
  intros Hfile (c & j & g & Hc & Tc & Hj & Tj & Hg & Tg). cbv zeta.
  unfold start_multi_agent_collaboration. exec.
  rewrite Hfile. exec. rewrite Hc. exec. rewrite Tc. exec.
  rewrite Hj. exec. rewrite Hg. exec. rewrite Tj, Tg. exec.
  unfold resolve_global, uuid4_str, now_isoformat, add_task, emit, next_draw.
  cbn [existsb module_globals String.eqb Ascii.eqb Bool.eqb orb]. exec.
  cbn [config_file environ urandom drawn now events].
  rewrite Hfile. reflexivity.
Qed.

(** C8 (as amended): when cross-agent mode and both agents are enabled,
    each call answers 200 with an identifier of 36 characters made from a
    draw of sixteen random bytes that no later call reads again; and two
    calls return the same identifier exactly when their draws agree on the
    122 bits that a version-4 UUID keeps.  Identifiers are therefore
    distinct whenever the draws differ in those bits, and only then. *)
Theorem collaboration_identifiers w1 w2 config1 config2 request1 request2 :
  config_file w1 = Parsed config1 -> accepts_collaboration config1 ->
  config_file w2 = Parsed config2 -> accepts_collaboration config2 ->
  let r1 := serve (start_multi_agent_collaboration repr_str request1) w1 in
  let r2 := serve (start_multi_agent_collaboration repr_str request2) w2 in
  let after1 := fst (start_multi_agent_collaboration repr_str request1 w1) in
  exists id1 id2,
    status r1 = 200 /\ status r2 = 200
    /\ getitem (body r1) "collaboration_id" = Ok (VStr id1)
    /\ getitem (body r2) "collaboration_id" = Ok (VStr id2)
    /\ String.length id1 = 36 /\ String.length id2 = 36
    /\ urandom after1 = urandom w1 /\ drawn after1 = S (drawn w1)
    /\ (id1 = id2
        <-> Z.land (next_draw w1) UUID.random_mask = Z.land (next_draw w2) UUID.random_mask).
Proof.
  intros Hfile1 On1 Hfile2 On2. cbv zeta. unfold serve.
  rewrite (start_collaboration_accepted w1 config1 request1 Hfile1 On1).
  rewrite (start_collaboration_accepted w2 config2 request2 Hfile2 On2).
  exists (UUID.to_str (UUID.v4_int (next_draw w1))),
         (UUID.to_str (UUID.v4_int (next_draw w2))).
  assert (R : forall w, (0 <= next_draw w < 2 ^ 128)%Z)
    by (intros w; apply Z.mod_pos_bound; lia).
  repeat split; try apply to_str_length.
  - intros E. apply to_str_inj in E; try (apply v4_int_range; apply R).
    apply v4_int_eq_iff; [apply R | apply R | exact E].
  - intros E. apply v4_int_eq_iff in E; [|apply R|apply R]. rewrite E. reflexivity.
Qed.
End FreshIdentifiers.

Lemma collaboration_identifiers_witness :
  exists id1 id2,
    getitem (body (serve Samples.start_full Samples.enabled_world)) "collaboration_id"
    = Ok (VStr id1)
    /\ getitem (body (serve Samples.start_full
                       (fst (Samples.start_full Samples.enabled_world))))
         "collaboration_id"
       = Ok (VStr id2)
    /\ id1 <> id2.
Proof.
  assert (On : accepts_collaboration (Samples.config true true true))
    by (exists (VBool true), (VBool true), (VBool true); repeat split).
  destruct (collaboration_identifiers Samples.plain_repr
              Samples.enabled_world (fst (Samples.start_full Samples.enabled_world))
              (Samples.config true true true) (Samples.config true true true)
              (Samples.request "full_collaboration") (Samples.request "full_collaboration")
              eq_refl On eq_refl On)
    as (id1 & id2 & _ & _ & H1 & H2 & _ & _ & _ & _ & Same).
  exists id1, id2. split; [exact H1|]. split; [exact H2|].
  intros E. apply Same in E. vm_compute in E. discriminate E.
Defined.

(** C8 as stated fails: in a world whose first two draws differ only in
    bit 76, which the version field overwrites, two consecutive calls
    return the same identifier. *)
Lemma collaboration_identifier_repeats :
  next_draw Samples.colliding_world
  <> next_draw (fst (Samples.start_full Samples.colliding_world))
  /\ getitem (body (serve Samples.start_full Samples.colliding_world)) "collaboration_id"
     = Ok (VStr "00000000-0000-4000-8000-000000000000")
  /\ getitem (body (serve Samples.start_full
                      (fst (Samples.start_full Samples.colliding_world))))
       "collaboration_id"
     = Ok (VStr "00000000-0000-4000-8000-000000000000").
Proof.
  split; [|split].
  - vm_compute. discriminate.
  - vm_compute. reflexivity.
  - vm_compute. reflexivity.
Qed.

(* ================================================================= *)
(** * Further properties *)

(* ----------------------------------------------------------------- *)
(** ** Starting a collaboration *)

Lemma total_sleep_app (a b : list event) :
  total_sleep (a ++ b) = total_sleep a + total_sleep b.
Proof.
  induction a as [|[line|seconds|t] a IH]; simpl; rewrite ?IH; lia.
Qed.

Lemma printed_app (a b : list event) :
  printed (a ++ b) = (printed a ++ printed b)%list.
Proof.
  induction a as [|[line|seconds|t] a IH]; simpl; rewrite ?IH; reflexivity.
Qed.

Lemma scheduled_app (a b : list event) :
  scheduled (a ++ b) = (scheduled a ++ scheduled b)%list.
Proof.
  induction a as [|[line|seconds|t] a IH]; simpl; rewrite ?IH; reflexivity.
Qed.

Section Starting.
Import MultiAgentWorkflow.
Variable repr_str : string -> string.

(** X5: a request that is not answered with 200 leaves the world as it
    was: no random bytes are drawn, no task is scheduled, nothing is
    printed. *)
Theorem refused_collaboration_leaves_no_trace w request :
  status (serve (start_multi_agent_collaboration repr_str request) w) <> 200 ->
  fst (start_multi_agent_collaboration repr_str request w) = w.
Proof.
  unfold start_multi_agent_collaboration. exec.
  destruct (config_file w); [reflexivity|].
  destruct (config_flag config "cross_agent" "enabled") as [c|]; [|reflexivity].
  destruct (truthy c); [|reflexivity].
  destruct (config_flag config "jules_agent" "enabled") as [j|]; [|reflexivity].
  destruct (config_flag config "gemini_agent" "enabled") as [g|]; [|reflexivity].
  destruct (truthy j), (truthy g); try reflexivity.
  intros Not200. exfalso. apply Not200. reflexivity.
Qed.

(** X6: with cross-agent mode off the handler answers 500 without reading
    the agents' flags at all, so it does so whatever the [jules_agent] and
    [gemini_agent] entries hold. *)
Theorem cross_agent_off_is_checked_first w config request c :
  config_file w = Parsed config ->
  config_flag config "cross_agent" "enabled" = Ok c -> truthy c = false ->
  serve (start_multi_agent_collaboration repr_str request) w
  = mkResponse 500
      (detail "Collaboration initiation error: 503: Multi-agent collaboration not enabled").
Proof.
  intros Hfile Hc Off.
  unfold start_multi_agent_collaboration. exec.
  rewrite Hfile. exec. rewrite Hc. exec. rewrite Off. exec.
  reflexivity.
Qed.

(** X7: an accepted request schedules exactly one task; the task carries
    the identifier the client was given and the request's description,
    workflow type, repository and requirements; and running it returns
    [None] after printing the pipeline's five lines, each tagged with that
    identifier. *)
Theorem scheduled_task_runs_under_returned_id w config request :
  config_file w = Parsed config -> accepts_collaboration config ->
  exists id t,
    getitem (body (serve (start_multi_agent_collaboration repr_str request) w))
      "collaboration_id" = Ok (VStr id)
    /\ scheduled (events (fst (start_multi_agent_collaboration repr_str request w)))
       = (scheduled (events w) ++ [t])%list
    /\ t = mkTask id (task_description request) (workflow_type request)
             (github_repo_url request) (specific_requirements request)
    /\ forall w',
        snd (run_task t w') = Ok VNone
        /\ printed (events (fst (run_task t w')))
           = (printed (events w') ++ pipeline_lines id)%list.
Proof.
  intros Hfile On. unfold serve.
  rewrite (start_collaboration_accepted repr_str w config request Hfile On).
  eexists _, _. split; [reflexivity|].
  split; [cbn [fst events]; rewrite scheduled_app; reflexivity|].
  split; [reflexivity|].
  intros w'. unfold run_task. cbn [arg_collaboration_id arg_task_description
    arg_workflow_type arg_github_repo_url arg_requirements].
  rewrite pipeline_trace. cbn [fst snd events].
  split; [reflexivity|]. rewrite printed_app. reflexivity.
Qed.
End Starting.

Lemma refused_collaboration_leaves_no_trace_witness :
  fst (MultiAgentWorkflow.start_multi_agent_collaboration Samples.plain_repr
         (Samples.request "full_collaboration")
         (Samples.world_with (Samples.config true false true) Samples.counting))
  = Samples.world_with (Samples.config true false true) Samples.counting.
Proof.
  apply (refused_collaboration_leaves_no_trace Samples.plain_repr
           (Samples.world_with (Samples.config true false true) Samples.counting)
           (Samples.request "full_collaboration")).
  vm_compute. discriminate.
Defined.

Lemma cross_agent_off_is_checked_first_witness :
  serve (MultiAgentWorkflow.start_multi_agent_collaboration Samples.plain_repr
           (Samples.request "full_collaboration"))
    (Samples.world_with Samples.cross_off_malformed_agents Samples.counting)
  = mkResponse 500
      (detail "Collaboration initiation error: 503: Multi-agent collaboration not enabled").
Proof.
  exact (cross_agent_off_is_checked_first Samples.plain_repr
           (Samples.world_with Samples.cross_off_malformed_agents Samples.counting)
           Samples.cross_off_malformed_agents (Samples.request "full_collaboration")
           (VBool false) eq_refl eq_refl eq_refl).
Defined.

Lemma scheduled_task_runs_under_returned_id_witness :
  exists id t,
    getitem (body (serve Samples.start_full Samples.enabled_world)) "collaboration_id"
    = Ok (VStr id)
    /\ scheduled (events (fst (Samples.start_full Samples.enabled_world))) = [t]
    /\ arg_collaboration_id t = id.
Proof.
  assert (On : accepts_collaboration (Samples.config true true true))
    by (exists (VBool true), (VBool true), (VBool true); repeat split).
  destruct (scheduled_task_runs_under_returned_id Samples.plain_repr
              Samples.enabled_world (Samples.config true true true)
              (Samples.request "full_collaboration") eq_refl On)
    as (id & t & Hid & Hsched & Ht & _).
  exists id, t. split; [exact Hid|]. split; [exact Hsched|].
  rewrite Ht. reflexivity.
Defined.

(* ----------------------------------------------------------------- *)
(** ** The phases *)

Section MorePipeline.
Import MultiAgentWorkflow.

(** X8: a run of the pipeline spends six seconds in simulated delays,
    whatever its arguments, schedules no further task and draws no random
    bytes. *)
Theorem pipeline_takes_six_seconds cid task_description workflow_type repo requirements w :
  let after :=
    fst (execute_collaboration_workflow cid task_description workflow_type repo
           requirements w) in
  total_sleep (events after) = total_sleep (events w) + 6
  /\ scheduled (events after) = scheduled (events w)
  /\ drawn after = drawn w.
Proof.
  cbv zeta. rewrite pipeline_trace. cbn [fst events drawn].
  rewrite total_sleep_app, scheduled_app. cbn [total_sleep scheduled].
  rewrite app_nil_r. repeat split.
Qed.

(** X9: when the implementation phase raises, the validation and
    finalization phases are never run and the analysis result is dropped:
    whatever those two phases are, the run ends with the error line printed
    in the world the failed phase left. *)
Theorem pipeline_stops_at_failed_implementation
  (ph : phase_functions) cid task_description workflow_type repo requirements
  w w1 analysis w2 e :
  run_analysis ph task_description requirements
    (logged ("[" ++ cid ++ "] Phase 1: Starting Gemini analysis...") w)
  = (w1, Ok analysis) ->
  run_implementation ph task_description analysis repo
    (logged ("[" ++ cid ++ "] Phase 2: Starting Jules implementation...") w1)
  = (w2, Raise e) ->
  execute_collaboration_workflow_with ph cid task_description workflow_type repo
    requirements w
  = (logged ("[" ++ cid ++ "] Collaboration error: " ++ str_exn e) w2, Ok VNone).
Proof.
  intros H1 H2.
  unfold execute_collaboration_workflow_with, workflow_phases, logged in *.
  exec.
  destruct (print ("[" ++ cid ++ "] Phase 1: Starting Gemini analysis...") w)
    as [v1 [[]|]] eqn:P1; [|discriminate P1].
  cbn [fst] in H1. rewrite H1.
  destruct (print ("[" ++ cid ++ "] Phase 2: Starting Jules implementation...") w1)
    as [v2 [[]|]] eqn:P2; [|discriminate P2].
  cbn [fst] in H2. rewrite H2.
  destruct (print ("[" ++ cid ++ "] Collaboration error: " ++ str_exn e) w2)
    as [v3 [[]|]] eqn:P3; [|discriminate P3].
  reflexivity.
Qed.

(** X10: handed an analysis object without a ["task_analysis"] entry, the
    implementation phase still waits its three seconds and then raises
    [KeyError] for that key. *)
Theorem implementation_needs_task_analysis task_description fields repo w :
  assoc "task_analysis" fields = None ->
  simulate_jules_implementation task_description (VDict fields) repo w
  = (fst (sleep 3 w), Raise (PyExc "KeyError" "'task_analysis'")).
Proof.
  intros Missing. unfold simulate_jules_implementation, getitem. exec.
  rewrite Missing.
  destruct (sleep 3 w) as [w' [[]|]] eqn:S; [|discriminate S].
  reflexivity.
Qed.

(** X11: the implementation result always names a repository: the
    request's URL when there is a non-empty one, ["local_development"]
    otherwise, and never the empty string. *)
Theorem implementation_names_a_repository task_description analysis repo w security :
  getpath analysis ["task_analysis"; "security_considerations"] = Ok security ->
  exists implementation repository,
    snd (simulate_jules_implementation task_description analysis repo w)
    = Ok implementation
    /\ getpath implementation ["github_integration"; "repository"]
       = Ok (VStr repository)
    /\ repository <> ""
    /\ (forall url, repo = Some url -> url <> "" -> repository = url)
    /\ (repo = None \/ repo = Some "" -> repository = "local_development").
Proof.
  intros H. unfold simulate_jules_implementation. exec.
  cbn [getpath] in H.
  destruct (getitem analysis "task_analysis") as [ta|]; [|discriminate].
  destruct (getitem ta "security_considerations") as [sc|]; [|discriminate].
  destruct (sleep 3 w) as [w' [[]|]] eqn:S; [|discriminate S].
  eexists _, (repo_or_local repo). split; [reflexivity|].
  split; [reflexivity|].
  unfold repo_or_local. repeat split.
  - destruct repo as [url|]; [|discriminate].
    destruct (String.eqb url "") eqn:E; [discriminate|].
    apply String.eqb_neq in E. exact E.
  - intros url -> Hne. apply String.eqb_neq in Hne. rewrite Hne. reflexivity.
  - intros [-> | ->]; reflexivity.
Qed.

(** X12: the analysis phase does not look at the task description; after
    its two seconds it returns the caller's requirements, in order, followed
    by two fixed ones. *)
Theorem analysis_extends_requirements task_description requirements w :
  exists analysis,
    simulate_gemini_analysis task_description requirements w
    = (fst (sleep 2 w), Ok analysis)
    /\ getpath analysis ["requirements_analysis"; "functional_requirements"]
       = Ok (strs (requirements ++ ["User authentication"; "Data persistence"]))
    /\ forall other_description,
        simulate_gemini_analysis other_description requirements w
        = simulate_gemini_analysis task_description requirements w.
Proof.
  unfold simulate_gemini_analysis. exec.
  destruct (sleep 2 w) as [w' [[]|]] eqn:S; [|discriminate S].
  eexists. repeat split.
Qed.
(** X28: cross-validation does not look at what it validates: for any
    two inputs it waits one second and returns the same verdict, which is
    "passed" and ready for deployment. *)
Theorem validation_always_passes analysis implementation w :
  exists verdict,
    cross_validate_solution analysis implementation w = (fst (sleep 1 w), Ok verdict)
    /\ getitem verdict "validation_status" = Ok (VStr "passed")
    /\ getpath verdict ["consensus"; "ready_for_deployment"] = Ok (VBool true)
    /\ forall other_analysis other_implementation,
        cross_validate_solution other_analysis other_implementation w
        = cross_validate_solution analysis implementation w.
Proof.
  unfold cross_validate_solution. exec.
  destruct (sleep 1 w) as [w' [[]|]] eqn:S; [|discriminate S].
  eexists. repeat split.
Qed.
End MorePipeline.

Lemma pipeline_stops_at_failed_implementation_witness :
  MultiAgentWorkflow.execute_collaboration_workflow_with
    (Samples.failing_implementation (PyExc "RuntimeError" "boom"))
    "id" "add an endpoint" "full_collaboration" None [] Samples.enabled_world
  = (logged "[id] Collaboration error: boom"
       (logged "[id] Phase 2: Starting Jules implementation..."
          (fst (MultiAgentWorkflow.simulate_gemini_analysis "add an endpoint" []
                  (logged "[id] Phase 1: Starting Gemini analysis..."
                     Samples.enabled_world)))),
     Ok VNone).
Proof.
  exact (pipeline_stops_at_failed_implementation
           (Samples.failing_implementation (PyExc "RuntimeError" "boom"))
           "id" "add an endpoint" "full_collaboration" None [] Samples.enabled_world
           _ _ _ _ eq_refl eq_refl).
Defined.

Lemma implementation_needs_task_analysis_witness :
  MultiAgentWorkflow.simulate_jules_implementation "add an endpoint" (VDict []) None
    Samples.enabled_world
  = (fst (sleep 3 Samples.enabled_world), Raise (PyExc "KeyError" "'task_analysis'")).
Proof.
  exact (implementation_needs_task_analysis "add an endpoint" [] None
           Samples.enabled_world eq_refl).
Defined.

Lemma implementation_names_a_repository_witness :
  exists implementation repository,
    snd (MultiAgentWorkflow.simulate_jules_implementation "add an endpoint"
           Samples.analysis_stub (Some "") Samples.enabled_world)
    = Ok implementation
    /\ getpath implementation ["github_integration"; "repository"] = Ok (VStr repository)
    /\ repository = "local_development".
Proof.
  destruct (implementation_names_a_repository "add an endpoint" Samples.analysis_stub
              (Some "") Samples.enabled_world (strs ["Input validation"]) eq_refl)
    as (impl & r & H1 & H2 & _ & _ & Local).
  exists impl, r. split; [exact H1|]. split; [exact H2|].
  apply Local. right. reflexivity.
Defined.

Lemma implementation_inherits_security_witness :
  exists implementation,
    MultiAgentWorkflow.simulate_jules_implementation "add an endpoint"
      Samples.analysis_stub None Samples.enabled_world
    = (fst (sleep 3 Samples.enabled_world), Ok implementation)
    /\ getpath implementation ["implementation_details"; "security_implemented"]
       = Ok (strs ["Input validation"]).
Proof.
  exact (implementation_inherits_security "add an endpoint" Samples.analysis_stub None
           Samples.enabled_world (strs ["Input validation"]) eq_refl).
Defined.

Lemma finalization_assembles_witness :
  exists final,
    MultiAgentWorkflow.finalize_collaboration "id" Samples.analysis_stub
      Samples.implementation_stub Samples.validation_stub Samples.enabled_world
    = (Samples.enabled_world, Ok final)
    /\ getpath final ["collaboration_summary"; "quality_score"] = Ok (VFloat "3.5")
    /\ getpath final ["knowledge_transfer"; "gemini_insights"] = Ok (VStr "none")
    /\ getpath final ["knowledge_transfer"; "jules_learnings"] = Ok (VInt 7).
Proof.
  exact (finalization_assembles "id" Samples.analysis_stub Samples.implementation_stub
           Samples.validation_stub Samples.enabled_world
           (VFloat "3.5") (VStr "none") (VInt 7) eq_refl eq_refl eq_refl).
Defined.

(* ----------------------------------------------------------------- *)
(** ** Readiness and capabilities *)

Section Readiness.
Import MultiAgentWorkflow.
Variable repr_str : string -> string.

(** The integration test returns exactly when the three flags can be
    read, and then reports whether all of them are truthy. *)
Lemma integration_test_outcome w :
  (exists config c j g payload,
      config_file w = Parsed config
      /\ config_flag config "cross_agent" "enabled" = Ok c
      /\ config_flag config "jules_agent" "enabled" = Ok j
      /\ config_flag config "gemini_agent" "enabled" = Ok g
      /\ snd (test_multi_agent_integration w) = Ok payload
      /\ getitem payload "ready_for_collaboration"
         = Ok (VBool (truthy c && truthy j && truthy g))
      /\ getitem payload "overall_status"
         = Ok (VStr (if truthy c && truthy j && truthy g then "healthy" else "partial")))
  \/ ((exists e, snd (test_multi_agent_integration w) = Raise e)
      /\ forall request,
          status (serve (start_multi_agent_collaboration repr_str request) w) = 500).
Proof.
  unfold test_multi_agent_integration, start_multi_agent_collaboration, now_isoformat.
  exec.
  destruct (config_file w) as [e|config] eqn:Hfile;
    [right; split; [eexists|]; reflexivity|].
  destruct (config_flag config "cross_agent" "enabled") as [c|] eqn:Hc;
    [|right; split; [eexists|]; reflexivity].
  destruct (config_flag config "jules_agent" "enabled") as [j|] eqn:Hj.
  2:{ right. split; [eexists; reflexivity|]. intros _. destruct (truthy c); reflexivity. }
  destruct (config_flag config "gemini_agent" "enabled") as [g|] eqn:Hg.
  2:{ right. split; [eexists; reflexivity|]. intros _. destruct (truthy c); reflexivity. }
  left. exists config, c, j, g. eexists.
  repeat split; first [assumption | reflexivity].
Qed.

(** X13: the integration test and the start endpoint agree.  The test
    handler returns a payload whose [ready_for_collaboration] is true
    exactly when a start request in the same world would be answered with
    200; and whenever it returns a payload, the [overall_status] in it is
    ["healthy"] if it reports ready and ["partial"] if not. *)
Theorem integration_test_agrees_with_start w request :
  ((exists payload,
       snd (test_multi_agent_integration w) = Ok payload
       /\ getitem payload "ready_for_collaboration" = Ok (VBool true))
   <-> status (serve (start_multi_agent_collaboration repr_str request) w) = 200)
  /\ (forall payload,
        snd (test_multi_agent_integration w) = Ok payload ->
        exists ready,
          getitem payload "ready_for_collaboration" = Ok (VBool ready)
          /\ getitem payload "overall_status"
             = Ok (VStr (if ready then "healthy" else "partial"))).
Proof.
  destruct (integration_test_outcome w)
    as [(config & c & j & g & payload & Hfile & Hc & Hj & Hg & Returned & Ready & Overall)
       | [[e Raised] Refused]].
  - split.
    + split.
      * intros (payload' & Returned' & All).
        rewrite Returned in Returned'. injection Returned' as <-.
        rewrite Ready in All. injection All as All.
        apply andb_prop in All as [All Tg]. apply andb_prop in All as [Tc Tj].
        unfold serve.
        rewrite (start_collaboration_accepted repr_str w config request Hfile);
          [reflexivity|].
        exists c, j, g. repeat split; assumption.
      * intros Accepted. exists payload. split; [exact Returned|].
        rewrite Ready.
        revert Accepted. unfold start_multi_agent_collaboration. exec.
        rewrite Hfile. exec. rewrite Hc. exec.
        destruct (truthy c); [|discriminate]. exec. rewrite Hj. exec. rewrite Hg. exec.
        destruct (truthy j); [|discriminate].
        destruct (truthy g); [|discriminate].
        reflexivity.
    + intros payload' Returned'.
      rewrite Returned in Returned'. injection Returned' as <-.
      eexists. split; [exact Ready | exact Overall].
  - split.
    + rewrite (Refused request). split.
      * intros (payload & Returned & _). rewrite Raised in Returned. discriminate.
      * discriminate.
    + intros payload Returned. rewrite Raised in Returned. discriminate.
Qed.
End Readiness.

Section Defaults.
Import MultiAgentWorkflow.

(** X14: a configuration object that has none of the three sections is
    not an error for the capabilities endpoint: it answers 200 and reports
    cross-agent mode and both agents as [False]. *)
Theorem capabilities_default_to_disabled w fields :
  config_file w = Parsed (VDict fields) ->
  assoc "cross_agent" fields = None ->
  assoc "jules_agent" fields = None ->
  assoc "gemini_agent" fields = None ->
  let r := serve get_multi_agent_capabilities w in
  status r = 200
  /\ getitem (body r) "cross_agent_enabled" = Ok (VBool false)
  /\ getitem (body r) "available_agents"
     = Ok (VDict [("jules", VBool false); ("gemini", VBool false)]).
Proof.
  intros Hfile Hc Hj Hg. cbv zeta.
  unfold get_multi_agent_capabilities, config_flag, get. exec.
  rewrite Hfile. exec. rewrite Hc, Hj, Hg. repeat split.
Qed.
End Defaults.

Lemma capabilities_default_to_disabled_witness :
  status (serve MultiAgentWorkflow.get_multi_agent_capabilities
            (Samples.world_with (VDict []) Samples.counting)) = 200.
Proof.
  exact (proj1 (capabilities_default_to_disabled
                  (Samples.world_with (VDict []) Samples.counting) []
                  eq_refl eq_refl eq_refl eq_refl)).
Defined.

(* ----------------------------------------------------------------- *)
(** ** The Gemini endpoints *)

Lemma string_append_assoc (a b c : string) : (a ++ b) ++ c = a ++ b ++ c.
Proof. induction a as [|x a IH]; simpl; [|rewrite IH]; reflexivity. Qed.

Section Gemini.
Import GeminiIntegration.

(** The two ways the gate can end. *)
Lemma gemini_gate_cases w :
  fst (get_gemini_config w) = w
  /\ ((exists gemini_config g,
         snd (get_gemini_config w) = Ok gemini_config
         /\ get gemini_config "enabled" (VBool false) = Ok g
         /\ truthy g = true)
      \/ (exists text, snd (get_gemini_config w) = Raise (HTTPException 500 text))).
Proof.
  unfold get_gemini_config. exec.
  destruct (config_file w) as [e|config]; [split; [reflexivity|right; eauto]|].
  destruct (get config "gemini_agent" (VDict [])) as [gc|e];
    [|split; [reflexivity|right; eauto]].
  destruct (get gc "enabled" (VBool false)) as [g|e] eqn:Hg;
    [|split; [reflexivity|right; eauto]].
  destruct (truthy g) eqn:Tg; (split; [reflexivity|]).
  - left. exists gc, g. auto.
  - right. eauto.
Qed.

(** X15: the gate never lets a disabled agent through and never raises
    anything but a 500.  It either returns the [gemini_agent] entry of a
    readable configuration, whose [enabled] entry is then truthy, or raises
    [HTTPException] with status 500 -- never the 503 it names, never another
    exception; and it leaves the world alone. *)
Theorem gemini_gate_outcomes w :
  fst (get_gemini_config w) = w
  /\ ((exists config gemini_config g,
         config_file w = Parsed config
         /\ get config "gemini_agent" (VDict []) = Ok gemini_config
         /\ snd (get_gemini_config w) = Ok gemini_config
         /\ get gemini_config "enabled" (VBool false) = Ok g
         /\ truthy g = true)
      \/ (exists text, snd (get_gemini_config w) = Raise (HTTPException 500 text))).
Proof.
  unfold get_gemini_config. exec.
  destruct (config_file w) as [e|config]; [split; [reflexivity|right; eauto]|].
  destruct (get config "gemini_agent" (VDict [])) as [gc|e] eqn:Hsec;
    [|split; [reflexivity|right; eauto]].
  destruct (get gc "enabled" (VBool false)) as [g|e] eqn:Hg;
    [|split; [reflexivity|right; eauto]].
  destruct (truthy g) eqn:Tg; (split; [reflexivity|]).
  - left. exists config, gc, g. auto.
  - right. eauto.
Qed.

(** The prompt is one of the four templates, the code, and the context
    if there is one. *)
Lemma build_prompt_shape request :
  exists before after, build_prompt request = before ++ code request ++ after.
Proof.
  unfold build_prompt, lookup.
  set (general := "Analyze this code for overall quality and suggest improvements: ").
  set (security :=
         "Perform a security analysis of this code and identify vulnerabilities: ").
  set (performance :=
         "Analyze this code for performance issues and optimization opportunities: ").
  set (style := "Review this code for style consistency and best practices: ").
  assert (Shape : forall template,
             exists before after,
               match context request with
               | Some c =>
                   if String.eqb c "" then template ++ code request
                   else (template ++ code request) ++ newline ++ newline
                          ++ "Additional context: " ++ c
               | None => template ++ code request
               end = before ++ code request ++ after).
  { intros template. exists template.
    assert (Bare : template ++ code request = template ++ code request ++ "").
    { f_equal. induction (code request) as [|x s IH]; simpl; [|rewrite <- IH];
        reflexivity. }
    destruct (context request) as [c|]; [|exists ""; exact Bare].
    destruct (String.eqb c ""); [exists ""; exact Bare|].
    eexists. apply string_append_assoc. }
  destruct (String.eqb (analysis_type request) "general"); [apply Shape|].
  destruct (String.eqb (analysis_type request) "security"); [apply Shape|].
  destruct (String.eqb (analysis_type request) "performance"); [apply Shape|].
  destruct (String.eqb (analysis_type request) "style"); apply Shape.
Qed.

(** X16: the analysis endpoint assembles a prompt that contains the
    submitted code and then does not use it: two requests with the same
    task and analysis type get the same outcome, whatever their code and
    context. *)
Theorem analyze_ignores_code_and_context w request :
  contains (code request) (build_prompt request) = true
  /\ forall other_code other_context,
      analyze_code_with_gemini
        (mkAnalysisRequest other_code (task request) (analysis_type request)
           other_context) w
      = analyze_code_with_gemini request w.
Proof.
  split.
  - destruct (build_prompt_shape request) as (before & after & ->).
    apply contains_infix.
  - intros other_code other_context. destruct request. reflexivity.
Qed.

(** What the endpoint answers once the gate is open. *)
Lemma analyze_accepted w config gemini_config g c request :
  config_file w = Parsed config ->
  get config "gemini_agent" (VDict []) = Ok gemini_config ->
  get gemini_config "enabled" (VBool false) = Ok g ->
  truthy g = true ->
  config_flag config "cross_agent" "enabled" = Ok c ->
  serve (analyze_code_with_gemini request) w
  = mkResponse 200
      (GeminiResponse
         ("Gemini analysis for " ++ analysis_type request ++ ": The code shows "
            ++ task request
            ++ ". Key findings include structure improvements and optimization opportunities.")
         "completed" "0.85"
         ["Consider adding type hints for better code clarity";
          "Implement error handling for edge cases";
          "Add comprehensive unit tests";
          "Consider performance optimizations"]
         (if truthy c
          then VDict [("jules_integration", VBool true);
                      ("shared_context", VDict
                         [("analysis_type", VStr (analysis_type request));
                          ("task_description", VStr (task request));
                          ("recommendations",
                           strs ["Consider adding type hints for better code clarity";
                                 "Implement error handling for edge cases"])])]
          else VNone)).
Proof.
  intros Hfile Hsec Hg On Hc.
  unfold analyze_code_with_gemini. exec.
  rewrite (gemini_gate_open w config gemini_config g Hfile Hsec Hg On). exec.
  rewrite Hfile. exec. rewrite Hc. exec. reflexivity.
Qed.

(** X17: the analysis type is not validated.  With the gate open, any
    analysis type -- one of the four documented ones or not -- is answered
    with 200 and an [analysis] text that quotes both the analysis type and
    the task. *)
Theorem analyze_accepts_any_analysis_type w config gemini_config g c request :
  config_file w = Parsed config ->
  get config "gemini_agent" (VDict []) = Ok gemini_config ->
  get gemini_config "enabled" (VBool false) = Ok g ->
  truthy g = true ->
  config_flag config "cross_agent" "enabled" = Ok c ->
  let r := serve (analyze_code_with_gemini request) w in
  status r = 200
  /\ exists analysis,
      getitem (body r) "analysis" = Ok (VStr analysis)
      /\ contains (analysis_type request) analysis = true
      /\ contains (task request) analysis = true.
Proof.
  intros Hfile Hsec Hg On Hc. cbv zeta.
  rewrite (analyze_accepted w config gemini_config g c request Hfile Hsec Hg On Hc).
  split; [reflexivity|]. eexists. split; [reflexivity|]. split.
  - apply (contains_infix "Gemini analysis for ").
  - rewrite <- (string_append_assoc (analysis_type request)), <- string_append_assoc.
    apply contains_infix.
Qed.

(** X18: hand-over data is attached exactly when cross-agent mode is on,
    and then recommends the first two of the suggestions of the same
    response. *)
Theorem analyze_shares_top_recommendations w config gemini_config g c request :
  config_file w = Parsed config ->
  get config "gemini_agent" (VDict []) = Ok gemini_config ->
  get gemini_config "enabled" (VBool false) = Ok g ->
  truthy g = true ->
  config_flag config "cross_agent" "enabled" = Ok c ->
  let r := serve (analyze_code_with_gemini request) w in
  (truthy c = false -> getitem (body r) "collaboration_data" = Ok VNone)
  /\ (truthy c = true ->
      exists suggestions,
        getitem (body r) "suggestions" = Ok (VList suggestions)
        /\ getpath (body r) ["collaboration_data"; "shared_context"; "recommendations"]
           = Ok (VList (firstn 2 suggestions))
        /\ getpath (body r) ["collaboration_data"; "shared_context"; "analysis_type"]
           = Ok (VStr (analysis_type request))
        /\ getpath (body r) ["collaboration_data"; "shared_context"; "task_description"]
           = Ok (VStr (task request))).
Proof.
  intros Hfile Hsec Hg On Hc. cbv zeta.
  rewrite (analyze_accepted w config gemini_config g c request Hfile Hsec Hg On Hc).
  split; intros ->.
  - reflexivity.
  - eexists. repeat split.
Qed.

(** X19: a pull-request review needs a second switch.  With the gate
    open, a falsy or missing [pr_review_enabled] gives a 500 that wraps the
    503 raised for it; a truthy one gives 200 with the URL echoed, and the
    focus areas and the detail flag of the request play no part. *)
Theorem review_needs_its_own_switch w config gemini_config g p request :
  config_file w = Parsed config ->
  get config "gemini_agent" (VDict []) = Ok gemini_config ->
  get gemini_config "enabled" (VBool false) = Ok g ->
  truthy g = true ->
  get gemini_config "pr_review_enabled" (VBool false) = Ok p ->
  let r := serve (review_pull_request request) w in
  (truthy p = false ->
   r = mkResponse 500
         (detail "PR review error: 503: PR review not enabled for Gemini agent"))
  /\ (truthy p = true ->
      status r = 200
      /\ getitem (body r) "pr_url" = Ok (VStr (pr_url request))
      /\ forall focus detailed,
          serve (review_pull_request (mkReviewRequest (pr_url request) focus detailed)) w
          = r).
Proof.
  intros Hfile Hsec Hg On Hp. cbv zeta.
  unfold review_pull_request. exec.
  rewrite (gemini_gate_open w config gemini_config g Hfile Hsec Hg On). exec.
  rewrite Hp. exec.
  split; intros ->; exec; repeat split.
Qed.

(** X20: the capabilities of the Gemini agent are only ever reported for
    an enabled agent: whenever the endpoint answers 200, the [enabled] entry
    of the payload is truthy. *)
Theorem gemini_capabilities_only_when_enabled w :
  status (serve get_gemini_capabilities w) = 200 ->
  exists g,
    getitem (body (serve get_gemini_capabilities w)) "enabled" = Ok g
    /\ truthy g = true.
Proof.
  unfold get_gemini_capabilities. exec.
  destruct (gemini_gate_cases w) as [World [(gc & g & Open & Hg & Tg) | [text Closed]]].
  - destruct (get_gemini_config w) as [w' r]. cbn [fst snd] in World, Open. subst w' r.
    rewrite Hg.
    destruct (get gc "model" (VStr "gemini-pro")); [|discriminate].
    destruct (get gc "pr_review_enabled" (VBool false)); [|discriminate].
    destruct (get gc "code_analysis_enabled" (VBool false)); [|discriminate].
    intros _. exists g. split; [reflexivity | exact Tg].
  - destruct (get_gemini_config w) as [w' r]. cbn [snd] in Closed. subst r.
    discriminate.
Qed.

(** X21: when the enabled agent's configuration names no model, the
    capabilities handler returns a payload whose model is
    ["gemini-pro"]. *)
Theorem gemini_capabilities_default_model w config fields g :
  config_file w = Parsed config ->
  get config "gemini_agent" (VDict []) = Ok (VDict fields) ->
  assoc "enabled" fields = Some g -> truthy g = true ->
  assoc "model" fields = None ->
  exists payload,
    get_gemini_capabilities w = (w, Ok payload)
    /\ getitem payload "model" = Ok (VStr "gemini-pro").
Proof.
  intros Hfile Hsec Hg On Hmodel.
  unfold get_gemini_capabilities. exec.
  rewrite (gemini_gate_open w config (VDict fields) g Hfile Hsec); try exact On.
  2:{ unfold get. rewrite Hg. reflexivity. }
  unfold get. exec. rewrite Hg, Hmodel. eexists. split; reflexivity.
Qed.
End Gemini.

Section Health.
Import GeminiIntegration.

Lemma getenv_tells_presence env key :
  truthy (match find (fun kv => String.eqb key (fst kv)) env with
          | Some kv => VStr (snd kv)
          | None => VNone
          end)
  = variable_is_set env key.
Proof.
  unfold variable_is_set.
  destruct (find (fun kv => String.eqb key (fst kv)) env); reflexivity.
Qed.


(** X23: the health check tells whether the API key is set, never what it
    is: two worlds with the same configuration file, in which the same
    environment variables hold a non-empty value, get the same answer. *)
Theorem health_check_hides_key_value w1 w2 :
  config_file w1 = config_file w2 ->
  (forall key, variable_is_set (environ w1) key = variable_is_set (environ w2) key) ->
  serve health_check w1 = serve health_check w2.
Proof.
  intros Same Presence.
  destruct gemini_gate_reads_config_only as [gate Gate].
  unfold health_check. exec. rewrite !Gate, Same.
  destruct (gate (config_file w2)) as [gc|e]; [|reflexivity].
  destruct (get gc "api_key_env" (VStr "GEMINI_API_KEY")) as [key|]; [|reflexivity].
  unfold getenv.
  destruct key; try reflexivity.
  rewrite !getenv_tells_presence, Presence.
  destruct (get gc "enabled" (VBool false)); [|reflexivity].
  destruct (get gc "model" (VStr "gemini-pro")); [|reflexivity].
  destruct (get gc "code_analysis_enabled" (VBool false)); [|reflexivity].
  destruct (get gc "pr_review_enabled" (VBool false)); reflexivity.
Qed.
End Health.

Section Collaborate.
Import GeminiIntegration.

(** X24: with cross-agent mode on, [POST /gemini/collaborate] answers
    200 with an identifier made from one fresh draw and quotes the task,
    ignoring the analysis focus and the integration flag; the same request
    to [POST /jules/collaborate], in the same world, is answered with 500. *)
Theorem gemini_collaborates_where_jules_fails
  w config c task_description analysis_focus jules_integration collaboration_type :
  config_file w = Parsed config ->
  config_flag config "cross_agent" "enabled" = Ok c -> truthy c = true ->
  let run := request_gemini_collaboration task_description analysis_focus
               jules_integration w in
  status (respond (snd run)) = 200
  /\ getitem (body (respond (snd run))) "collaboration_id"
     = Ok (VStr (UUID.to_str (UUID.v4_int (next_draw w))))
  /\ getpath (body (respond (snd run))) ["task_analysis"; "requirements"]
     = Ok (VStr ("Analyzed requirements for: " ++ task_description))
  /\ drawn (fst run) = S (drawn w)
  /\ (forall focus flag,
        request_gemini_collaboration task_description focus flag w = run)
  /\ status (serve (JulesIntegration.request_collaboration task_description
                      collaboration_type) w) = 500.
Proof.
  intros Hfile Hc On. cbv zeta.
  unfold request_gemini_collaboration. exec.
  rewrite Hfile. exec. rewrite Hc. exec. rewrite On. exec.
  unfold uuid4_str, next_draw. exec. cbn [drawn].
  do 5 (split; [reflexivity|]).
  apply jules_collaborate_never_succeeds.
Qed.
End Collaborate.

(* ----------------------------------------------------------------- *)
(** ** The Jules endpoints *)

Lemma char_count_append (a b : string) :
  char_count (a ++ b) = char_count a + char_count b.
Proof.
  induction a as [|x a IH]; simpl; [reflexivity|].
  destruct (is_continuation x); rewrite IH; reflexivity.
Qed.

Lemma char_count_take_chars (n : nat) (s : string) :
  char_count (take_chars n s) = Nat.min n (char_count s).
Proof.
  revert n. induction s as [|x s IH]; intros n; simpl.
  - rewrite Nat.min_0_r. reflexivity.
  - destruct (is_continuation x) eqn:Cont; simpl.
    + rewrite Cont. apply IH.
    + destruct n as [|n]; simpl; [reflexivity|].
      rewrite Cont, IH. reflexivity.
Qed.

Lemma take_chars_is_prefix (n : nat) (s : string) :
  exists rest, s = take_chars n s ++ rest.
Proof.
  revert n. induction s as [|x s IH]; intros n; simpl.
  - exists "". reflexivity.
  - destruct (is_continuation x).
    + destruct (IH n) as [rest E]. exists rest. simpl. rewrite <- E. reflexivity.
    + destruct n as [|n]; [exists (String x s); reflexivity|].
      destruct (IH n) as [rest E]. exists rest. simpl. rewrite <- E. reflexivity.
Qed.

Section Jules.
Import JulesIntegration.
Variable validate_bool : value -> result bool.

(** X25: an accepted Jules task is acknowledged with the first fifty
    characters of its prompt, or all of it when it is shorter: the quoted
    text opens the prompt, and the message counts 24 characters more than
    the smaller of fifty and the prompt's length, so never more than 74.
    The task identifier comes from one fresh draw, and the repository,
    branch, test command and collaboration mode of the task are not looked
    at. *)
Theorem jules_task_quotes_fifty_characters w config jules_config e c b task :
  config_file w = Parsed config ->
  get config "jules_agent" (VDict []) = Ok jules_config ->
  get jules_config "enabled" (VBool false) = Ok e -> truthy e = true ->
  config_flag config "cross_agent" "enabled" = Ok c ->
  validate_bool c = Ok b ->
  let run := process_jules_task validate_bool task w in
  exists message quoted,
    status (respond (snd run)) = 200
    /\ getitem (body (respond (snd run))) "message" = Ok (VStr message)
    /\ message = "Jules task accepted: " ++ quoted ++ "..."
    /\ (exists rest, prompt task = quoted ++ rest)
    /\ char_count quoted = Nat.min 50 (char_count (prompt task))
    /\ char_count message = 24 + Nat.min 50 (char_count (prompt task))
    /\ char_count message <= 74
    /\ getitem (body (respond (snd run))) "task_id"
       = Ok (VStr (UUID.to_str (UUID.v4_int (next_draw w))))
    /\ getitem (body (respond (snd run))) "collaboration_enabled" = Ok (VBool b)
    /\ drawn (fst run) = S (drawn w)
    /\ forall url branch command mode,
        process_jules_task validate_bool
          (mkJulesTask (prompt task) url branch command mode) w = run.
Proof.
  intros Hfile Hsec He On Hc Hb. cbv zeta.
  unfold process_jules_task. exec.
  rewrite Hfile. exec. rewrite Hsec. exec. rewrite He. exec. rewrite On. exec.
  unfold uuid4_str, next_draw. exec. rewrite Hc. exec. rewrite Hb. exec.
  cbn [drawn].
  assert (Len : char_count
                  ("Jules task accepted: " ++ take_chars 50 (prompt task) ++ "...")
                = 24 + Nat.min 50 (char_count (prompt task))).
  { rewrite !char_count_append, char_count_take_chars.
    change (char_count "Jules task accepted: ") with 21.
    change (char_count "...") with 3. lia. }
  exists ("Jules task accepted: " ++ take_chars 50 (prompt task) ++ "..."),
         (take_chars 50 (prompt task)).
  split; [reflexivity|]. split; [reflexivity|]. split; [reflexivity|].
  split; [apply take_chars_is_prefix|].
  split; [apply char_count_take_chars|].
  split; [exact Len|]. split; [rewrite Len; lia|].
  repeat split.
Qed.

(** X26: with the Jules agent off, [POST /jules/task] answers 500 --
    the 503 it raises is caught by its own [except] clause -- and no task
    identifier is generated: the world is left as it was. *)
Theorem jules_task_refused_when_disabled w config jules_config e task :
  config_file w = Parsed config ->
  get config "jules_agent" (VDict []) = Ok jules_config ->
  get jules_config "enabled" (VBool false) = Ok e -> truthy e = false ->
  process_jules_task validate_bool task w
  = (w, Raise (HTTPException 500 "Jules integration error: 503: Jules agent not enabled")).
Proof.
  intros Hfile Hsec He Off.
  unfold process_jules_task. exec.
  rewrite Hfile. exec. rewrite Hsec. exec. rewrite He. exec. rewrite Off. exec.
  reflexivity.
Qed.
End Jules.

Section JulesCapabilities.
Import JulesIntegration.

(** X27: unlike the Gemini one, the Jules capabilities handler has no
    gate: whenever the [jules_agent] entry can be read it returns its
    payload, with the [enabled] value as configured, truthy or not. *)
Theorem jules_capabilities_are_not_gated w config jules_config e :
  config_file w = Parsed config ->
  get config "jules_agent" (VDict []) = Ok jules_config ->
  get jules_config "enabled" (VBool false) = Ok e ->
  exists payload,
    get_jules_capabilities w = (w, Ok payload)
    /\ getitem payload "enabled" = Ok e.
Proof.
  intros Hfile Hsec He.
  unfold get_jules_capabilities. exec.
  rewrite Hfile. exec. rewrite Hsec. exec. rewrite He. exec.
  destruct jules_config; try discriminate He.
  eexists. split; reflexivity.
Qed.
End JulesCapabilities.

(* ----------------------------------------------------------------- *)
(** ** Instances *)

Lemma analyze_accepts_any_analysis_type_witness :
  status (serve (GeminiIntegration.analyze_code_with_gemini
                   (GeminiIntegration.mkAnalysisRequest "x = 1" "naming" "poetry" None))
            (Samples.world_in (Samples.gemini_ready true) []))
  = 200.
Proof.
  exact (proj1 (analyze_accepts_any_analysis_type
                  (Samples.world_in (Samples.gemini_ready true) [])
                  (Samples.gemini_ready true)
                  (VDict [("enabled", VBool true); ("pr_review_enabled", VBool true);
                          ("api_key_env", VStr "KEY")])
                  (VBool true) (VBool true)
                  (GeminiIntegration.mkAnalysisRequest "x = 1" "naming" "poetry" None)
                  eq_refl eq_refl eq_refl eq_refl eq_refl)).
Defined.

Lemma analyze_shares_top_recommendations_witness :
  getitem (body (serve (GeminiIntegration.analyze_code_with_gemini
                          Samples.security_request)
                   (Samples.world_with (Samples.config false false true)
                      Samples.counting)))
    "collaboration_data"
  = Ok VNone.
Proof.
  exact (proj1 (analyze_shares_top_recommendations
                  (Samples.world_with (Samples.config false false true) Samples.counting)
                  (Samples.config false false true)
                  (VDict [("enabled", VBool true)]) (VBool true) (VBool false)
                  Samples.security_request
                  eq_refl eq_refl eq_refl eq_refl eq_refl) eq_refl).
Defined.

Lemma review_needs_its_own_switch_witness :
  serve (GeminiIntegration.review_pull_request Samples.review_request)
    (Samples.world_in (Samples.gemini_ready false) [])
  = mkResponse 500
      (detail "PR review error: 503: PR review not enabled for Gemini agent").
Proof.
  exact (proj1 (review_needs_its_own_switch
                  (Samples.world_in (Samples.gemini_ready false) [])
                  (Samples.gemini_ready false)
                  (VDict [("enabled", VBool true); ("pr_review_enabled", VBool false);
                          ("api_key_env", VStr "KEY")])
                  (VBool true) (VBool false) Samples.review_request
                  eq_refl eq_refl eq_refl eq_refl eq_refl) eq_refl).
Defined.

Lemma gemini_capabilities_only_when_enabled_witness :
  exists g,
    getitem (body (serve GeminiIntegration.get_gemini_capabilities
                     (Samples.world_in (Samples.gemini_ready true) [])))
      "enabled" = Ok g
    /\ truthy g = true.
Proof.
  exact (gemini_capabilities_only_when_enabled
           (Samples.world_in (Samples.gemini_ready true) []) eq_refl).
Defined.

Lemma gemini_capabilities_default_model_witness :
  exists payload,
    GeminiIntegration.get_gemini_capabilities
      (Samples.world_in (Samples.gemini_ready true) [])
    = (Samples.world_in (Samples.gemini_ready true) [], Ok payload)
    /\ getitem payload "model" = Ok (VStr "gemini-pro").
Proof.
  exact (gemini_capabilities_default_model
           (Samples.world_in (Samples.gemini_ready true) [])
           (Samples.gemini_ready true)
           [("enabled", VBool true); ("pr_review_enabled", VBool true);
            ("api_key_env", VStr "KEY")]
           (VBool true) eq_refl eq_refl eq_refl eq_refl eq_refl).
Defined.

Lemma health_check_hides_key_value_witness :
  serve GeminiIntegration.health_check
    (Samples.world_in (Samples.gemini_ready true) [("KEY", "first secret")])
  = serve GeminiIntegration.health_check
      (Samples.world_in (Samples.gemini_ready true) [("KEY", "another secret")]).
Proof.
  apply health_check_hides_key_value; [reflexivity|].
  intros key. unfold variable_is_set. cbn [Samples.world_in environ find fst snd].
  destruct (String.eqb key "KEY"); reflexivity.
Defined.

Lemma gemini_collaborates_where_jules_fails_witness :
  status (respond (snd (GeminiIntegration.request_gemini_collaboration
                          "add an endpoint" "requirements_and_security" true
                          Samples.enabled_world)))
  = 200
  /\ status (serve (JulesIntegration.request_collaboration "add an endpoint"
                      "analysis_and_implementation") Samples.enabled_world)
     = 500.
Proof.
  destruct (gemini_collaborates_where_jules_fails Samples.enabled_world
              (Samples.config true true true) (VBool true)
              "add an endpoint" "requirements_and_security" true
              "analysis_and_implementation" eq_refl eq_refl eq_refl)
    as (Gemini & _ & _ & _ & _ & Jules).
  split; [exact Gemini | exact Jules].
Defined.

Lemma jules_task_quotes_fifty_characters_witness :
  exists message,
    getitem (body (respond (snd (JulesIntegration.process_jules_task Samples.strict_bool
                                   Samples.jules_task Samples.enabled_world))))
      "message" = Ok (VStr message)
    /\ char_count message = 42.
Proof.
  destruct (jules_task_quotes_fifty_characters Samples.strict_bool
              Samples.enabled_world (Samples.config true true true)
              (VDict [("enabled", VBool true)]) (VBool true) (VBool true) true
              Samples.jules_task eq_refl eq_refl eq_refl eq_refl eq_refl eq_refl)
    as (message & quoted & _ & Message & _ & _ & _ & Len & _).
  exists message. split; [exact Message | exact Len].
Defined.

Lemma jules_task_refused_when_disabled_witness :
  JulesIntegration.process_jules_task Samples.strict_bool Samples.jules_task
    (Samples.world_with (Samples.config true false true) Samples.counting)
  = (Samples.world_with (Samples.config true false true) Samples.counting,
     Raise (HTTPException 500 "Jules integration error: 503: Jules agent not enabled")).
Proof.
  exact (jules_task_refused_when_disabled Samples.strict_bool
           (Samples.world_with (Samples.config true false true) Samples.counting)
           (Samples.config true false true) (VDict [("enabled", VBool false)])
           (VBool false) Samples.jules_task eq_refl eq_refl eq_refl eq_refl).
Defined.

Lemma jules_capabilities_are_not_gated_witness :
  exists payload,
    JulesIntegration.get_jules_capabilities
      (Samples.world_with (Samples.config true false true) Samples.counting)
    = (Samples.world_with (Samples.config true false true) Samples.counting, Ok payload)
    /\ getitem payload "enabled" = Ok (VBool false).
Proof.
  exact (jules_capabilities_are_not_gated
           (Samples.world_with (Samples.config true false true) Samples.counting)
           (Samples.config true false true) (VDict [("enabled", VBool false)])
           (VBool false) eq_refl eq_refl eq_refl).
Defined.
